(** * Vault plugin runner: helper/pluginutil/runner.go

    A shallow embedding of [PluginRunner.Run] and of the command-line TLS
    override ([APIClientMeta]) together with the properties of the launch
    environment, the checksum gate and the error paths. *)

From Stdlib Require Import String Ascii List Bool Arith Lia.
From Stdlib.Strings Require Import Byte.
From Stdlib Require Import NArith Permutation Sorted.
Import ListNotations.
Open Scope string_scope.

Set Implicit Arguments.

(** ** Go values *)

(** [[]byte] *)
Definition bytes := list byte.

Definition bytes_eq_dec (a b : bytes) : {a = b} + {a <> b} :=
  list_eq_dec Byte.byte_eq_dec a b.

(** [fmt.Sprintf("%s=%s", k, v)], the only format string the runner uses. *)
Definition Sprintf_kv (k v : string) : string := k ++ "=" ++ v.

(** ** os/exec: the part of [exec.Cmd] the runner touches.

    [exec.Command] only fills in the structure; nothing runs until [Start],
    which is when [Process] stops being nil.  [Args] holds the command name
    followed by the arguments; [Env] is the environment of the child, each
    entry having the form [key=value].  The [Path] field, which
    [exec.Command] resolves from the name through the host's search path, is
    left out: nothing here reads it. *)
Module exec.

Record Cmd : Type := mkCmd {
  Args : list string;
  Env : list string;
  Process : option nat
}.

Definition Command (name : string) (arg : list string) : Cmd :=
  {| Args := name :: arg; Env := []; Process := None |}.

(** [cmd.Env = append(cmd.Env, entries...)] *)
Definition appendEnv (cmd : Cmd) (entries : list string) : Cmd :=
  {| Args := Args cmd; Env := Env cmd ++ entries; Process := Process cmd |}.

End exec.

(** ** Reading an environment

    The key of an entry is what precedes its first [=]; an entry without
    [=] names no variable. *)
Fixpoint envKey (kv : string) : option string :=
  match kv with
  | EmptyString => None
  | String c rest =>
      if Ascii.eqb c "="%char then Some EmptyString
      else match envKey rest with
           | Some k => Some (String c k)
           | None => None
           end
  end.

(** The entry [kv] sets the variable [name]. *)
Definition setsVar (name kv : string) : bool :=
  match envKey kv with
  | Some k => String.eqb k name
  | None => false
  end.

(** Number of entries of [env] that set [name]. *)
Definition countVar (name : string) (env : list string) : nat :=
  length (filter (setsVar name) env).

(** A variable name is well formed when it holds no [=]. *)
Fixpoint noEq (s : string) : bool :=
  match s with
  | EmptyString => true
  | String c rest => negb (Ascii.eqb c "="%char) && noEq rest
  end.

(** ** Go's flag package, as far as [APIClientMeta.FlagSet] relies on it

    A flag set binds names to variables of a structure [T].  Defining a flag
    stores its default in the variable; parsing walks the argument list and
    stores what it finds.  Flags are written [-name], [--name],
    [-name=value] or, unless boolean, [-name value]; the first argument that
    is not a flag, or [--], ends the parse. *)
Module flag.

Section FlagSet.

Variable T : Type.

Inductive Value : Type :=
| stringValue (set : string -> T -> T)
| boolValue (set : bool -> T -> T).

Record Flag : Type := mkFlag { Name : string; Val : Value }.

(** The formal flags and the structure they write to. *)
Definition FlagSet : Type := (list Flag * T)%type.

Definition NewFlagSet (t : T) : FlagSet := ([], t).

Definition StringVar (fs : FlagSet) (set : string -> T -> T)
    (name value : string) : FlagSet :=
  ((fst fs ++ [mkFlag name (stringValue set)])%list, set value (snd fs)).

Definition BoolVar (fs : FlagSet) (set : bool -> T -> T)
    (name : string) (value : bool) : FlagSet :=
  ((fst fs ++ [mkFlag name (boolValue set)])%list, set value (snd fs)).

Fixpoint lookup (formal : list Flag) (name : string) : option Value :=
  match formal with
  | [] => None
  | fl :: rest => if String.eqb (Name fl) name then Some (Val fl)
                  else lookup rest name
  end.

Inductive Error : Type :=
| ErrBadSyntax (s : string)
| ErrNotDefined (name : string)
| ErrHelp
| ErrInvalidBool (value name : string)
| ErrNeedsArgument (name : string).

(** [strconv.ParseBool] *)
Definition ParseBool (s : string) : option bool :=
  if existsb (String.eqb s) ["1"; "t"; "T"; "TRUE"; "true"; "True"]
  then Some true
  else if existsb (String.eqb s) ["0"; "f"; "F"; "FALSE"; "false"; "False"]
  then Some false
  else None.

(** Splits at the first [=]. *)
Fixpoint cutEq (s : string) : string * option string :=
  match s with
  | EmptyString => (EmptyString, None)
  | String c rest =>
      if Ascii.eqb c "="%char then (EmptyString, Some rest)
      else let (n, v) := cutEq rest in (String c n, v)
  end.

Inductive Arg : Type :=
| NonFlag
| Terminator
| BadFlag
| IsFlag (name : string) (value : option string).

Definition classify (s : string) : Arg :=
  match s with
  | String c0 (String c1 rest1 as rest0) =>
      if negb (Ascii.eqb c0 "-"%char) then NonFlag
      else if Ascii.eqb c1 "-"%char && String.eqb rest1 "" then Terminator
      else
        let name := if Ascii.eqb c1 "-"%char then rest1 else rest0 in
        match name with
        | EmptyString => BadFlag
        | String c rest =>
            if Ascii.eqb c "-"%char || Ascii.eqb c "="%char then BadFlag
            else let (n, v) := cutEq rest in IsFlag (String c n) v
        end
  | _ => NonFlag
  end.

(** [FlagSet.Parse]: the structure as the parse leaves it, and the error
    that stopped it, if any. *)
Fixpoint parse (formal : list Flag) (args : list string) (t : T)
  : T * option Error :=
  match args with
  | [] => (t, None)
  | s :: rest =>
      match classify s with
      | NonFlag | Terminator => (t, None)
      | BadFlag => (t, Some (ErrBadSyntax s))
      | IsFlag name value =>
          match lookup formal name with
          | None =>
              if String.eqb name "help" || String.eqb name "h"
              then (t, Some ErrHelp)
              else (t, Some (ErrNotDefined name))
          | Some (boolValue set) =>
              match value with
              | Some v =>
                  match ParseBool v with
                  | Some b => parse formal rest (set b t)
                  | None => (t, Some (ErrInvalidBool v name))
                  end
              | None => parse formal rest (set true t)
              end
          | Some (stringValue set) =>
              match value with
              | Some v => parse formal rest (set v t)
              | None =>
                  match rest with
                  | v :: rest' => parse formal rest' (set v t)
                  | [] => (t, Some (ErrNeedsArgument name))
                  end
              end
          end
      end
  end.

Definition Parse (fs : FlagSet) (args : list string) : T * option Error :=
  parse (fst fs) args (snd fs).

End FlagSet.

End flag.

(** ** The command-line TLS override *)

(** [api.TLSConfig] *)
Record api_TLSConfig : Type := mkTLSConfig {
  CACert : string;
  CAPath : string;
  ClientCert : string;
  ClientKey : string;
  TLSServerName : string;
  Insecure : bool
}.

Record APIClientMeta : Type := mkAPIClientMeta {
  flagCACert : string;
  flagCAPath : string;
  flagClientCert : string;
  flagClientKey : string;
  flagInsecure : bool;
  flagMetadata : bool
}.

(** [&APIClientMeta{}] *)
Definition zeroAPIClientMeta : APIClientMeta :=
  mkAPIClientMeta "" "" "" "" false false.

(** Assignments through the pointers handed to the flag set. *)
Definition set_flagCACert (v : string) (f : APIClientMeta) :=
  mkAPIClientMeta v (flagCAPath f) (flagClientCert f) (flagClientKey f)
    (flagInsecure f) (flagMetadata f).
Definition set_flagCAPath (v : string) (f : APIClientMeta) :=
  mkAPIClientMeta (flagCACert f) v (flagClientCert f) (flagClientKey f)
    (flagInsecure f) (flagMetadata f).
Definition set_flagClientCert (v : string) (f : APIClientMeta) :=
  mkAPIClientMeta (flagCACert f) (flagCAPath f) v (flagClientKey f)
    (flagInsecure f) (flagMetadata f).
Definition set_flagClientKey (v : string) (f : APIClientMeta) :=
  mkAPIClientMeta (flagCACert f) (flagCAPath f) (flagClientCert f) v
    (flagInsecure f) (flagMetadata f).
Definition set_flagInsecure (v : bool) (f : APIClientMeta) :=
  mkAPIClientMeta (flagCACert f) (flagCAPath f) (flagClientCert f)
    (flagClientKey f) v (flagMetadata f).
Definition set_flagMetadata (v : bool) (f : APIClientMeta) :=
  mkAPIClientMeta (flagCACert f) (flagCAPath f) (flagClientCert f)
    (flagClientKey f) (flagInsecure f) v.

Definition FlagSet (f : APIClientMeta) : flag.FlagSet APIClientMeta :=
  let fs := flag.NewFlagSet f in
  let fs := flag.StringVar fs set_flagCACert "ca-cert" "" in
  let fs := flag.StringVar fs set_flagCAPath "ca-path" "" in
  let fs := flag.StringVar fs set_flagClientCert "client-cert" "" in
  let fs := flag.StringVar fs set_flagClientKey "client-key" "" in
  let fs := flag.BoolVar fs set_flagInsecure "tls-skip-verify" false in
  let fs := flag.BoolVar fs set_flagMetadata "metadata" false in
  fs.

Definition FetchMetadata (f : APIClientMeta) : bool := flagMetadata f.

Definition GetTLSConfig (f : APIClientMeta) : option api_TLSConfig :=
  (* If we need custom TLS configuration, then set it *)
  if negb (flagCACert f =? "") || negb (flagCAPath f =? "")
     || negb (flagClientCert f =? "") || negb (flagClientKey f =? "")
     || flagInsecure f
  then
    let t := {|
      CACert := flagCACert f;
      CAPath := flagCAPath f;
      ClientCert := flagClientCert f;
      ClientKey := flagClientKey f;
      TLSServerName := "";
      Insecure := flagInsecure f
    |} in
    Some t
  else None.

(** A plugin binary invoked with [args]: a fresh [APIClientMeta], its flag
    set, and the parse of the arguments. *)
Definition parseArgs (args : list string)
  : APIClientMeta * option flag.Error :=
  flag.Parse (FlagSet zeroAPIClientMeta) args.

(** A TLS-related flag counts as set when the parse left a value that
    differs from the default the flag was defined with. *)
Definition tlsFlagSet (f : APIClientMeta) : Prop :=
  flagCACert f <> "" \/ flagCAPath f <> "" \/ flagClientCert f <> ""
  \/ flagClientKey f <> "" \/ flagInsecure f = true.

(** ** Collaborators of the runner

    The types below are opaque to [Run]: it receives values of them and
    hands them on. *)
Class GoTypes : Type := {
  error : Type;                  (* Go's [error] values *)
  PrivateKey : Type;             (* [*ecdsa.PrivateKey] *)
  tls_Config : Type;             (* [tls.Config] *)
  plugin_Plugin : Type;          (* [plugin.Plugin] *)
  plugin_HandshakeConfig : Type; (* [plugin.HandshakeConfig] *)
  log_Logger : Type;             (* logxi's [log.Logger] *)
  hclog_Logger : Type;           (* [hclog.Logger] *)
  wrapping_ResponseWrapInfo : Type
}.

(** [hash.Hash], seen as the digest it computes. *)
Definition hash_Hash : Type := bytes -> bytes.

Section Types.

Context {T : GoTypes}.

(** A Go call returning [(value, error)]: the value is only looked at when
    the error is nil. *)
Inductive result (A : Type) : Type :=
| Ok (a : A)
| Err (e : error).

(** [RunnerUtil]: what the runner needs from the host. *)
Record RunnerUtil : Type := mkRunnerUtil {
  ResponseWrapData :
    list (string * bytes) -> nat -> bool -> result wrapping_ResponseWrapInfo;
  MlockEnabled : bool
}.

(** [PluginRunner]: the metadata needed to run a plugin. *)
Record PluginRunner : Type := mkPluginRunner {
  Name : string;
  Command : string;
  Args : list string;
  Sha256 : bytes;
  Builtin : bool;
  BuiltinFactory : option (unit -> result unit)
}.

(** [hclogFaker] adapts the host logger to the one go-plugin expects. *)
Record hclogFaker : Type := mkHclogFaker { logger : log_Logger }.

(** *** go-plugin: client configuration *)

Record plugin_SecureConfig : Type := mkSecureConfig {
  Checksum : bytes;
  Hash : hash_Hash
}.

Record plugin_ClientConfig : Type := mkClientConfig {
  HandshakeConfig : plugin_HandshakeConfig;
  Plugins : string -> option plugin_Plugin;
  Cmd : exec.Cmd;
  TLSConfig : option tls_Config;
  SecureConfig : option plugin_SecureConfig;
  Logger : hclog_Logger
}.

(** The handle.  [plugin.NewClient] stores the configuration; the child
    process is nil until the client is started. *)
Record plugin_Client : Type := mkClient {
  config : plugin_ClientConfig;
  process : option nat
}.

Definition plugin_NewClient (c : plugin_ClientConfig) : plugin_Client :=
  {| config := c; process := None |}.

End Types.

Arguments Ok {T A} a.
Arguments Err {T A} e.

(** What [Run] uses from the rest of its package: the names of the
    environment variables shared by host and plugin, the certificate
    helpers and the logger adapter's [ResetNamed].  [Run] depends on
    whether each helper succeeds and on what it yields, nothing more. *)
Class Package {T : GoTypes} : Type := {
  sha256_New : hash_Hash;        (* [sha256.New()] *)
  PluginUnwrapTokenEnv : string;
  PluginMlockEnabled : string;
  PluginMetadaModeEnv : string;
  generateCert : unit -> result (bytes * PrivateKey);
  createClientTLSConfig : bytes -> PrivateKey -> result (option tls_Config);
  wrapServerConfig : RunnerUtil -> bytes -> PrivateKey -> result string;
  ResetNamed : hclogFaker -> string -> hclog_Logger
}.

(** The three names are well formed and pairwise different. *)
Definition envNamesDistinct {T : GoTypes} (P : Package) : Prop :=
  noEq PluginUnwrapTokenEnv = true /\ noEq PluginMlockEnabled = true
  /\ noEq PluginMetadaModeEnv = true
  /\ PluginUnwrapTokenEnv <> PluginMlockEnabled
  /\ PluginUnwrapTokenEnv <> PluginMetadaModeEnv
  /\ PluginMlockEnabled <> PluginMetadaModeEnv.

Section Runner.

Context {T : GoTypes} {P : Package}.

(** ** PluginRunner.Run *)

(** [v, err := e; if err != nil { return nil, err }] *)
Notation "'try' x <- e ; k" :=
  (match e with
   | Err err => (None, Some err)
   | Ok x => k
   end)
  (at level 10, x pattern, e at level 100, k at level 200).

Definition Run (r : PluginRunner) (wrapper : RunnerUtil)
    (pluginMap : string -> option plugin_Plugin)
    (hs : plugin_HandshakeConfig) (env : list string)
    (logger : log_Logger) (isMetadataMode : bool)
  : option plugin_Client * option error :=
  (* Get a CA TLS Certificate *)
  try (certBytes, key) <- generateCert tt;
  (* Use CA to sign a client cert and return a configured TLS config *)
  try clientTLSConfig <- createClientTLSConfig certBytes key;
  (* Use CA to sign a server cert and wrap the values *)
  try wrapToken <- wrapServerConfig wrapper certBytes key;
  let cmd := exec.Command (Command r) (Args r) in
  let cmd := exec.appendEnv cmd env in
  (* Add the response wrap token to the ENV of the plugin *)
  let cmd := exec.appendEnv cmd [Sprintf_kv PluginUnwrapTokenEnv wrapToken] in
  (* Add the mlock setting to the ENV of the plugin *)
  let cmd :=
    if MlockEnabled wrapper
    then exec.appendEnv cmd [Sprintf_kv PluginMlockEnabled "true"]
    else cmd in
  let secureConfig := {| Checksum := Sha256 r; Hash := sha256_New |} in
  (* Create logger for the plugin client *)
  let clogger := {| logger := logger |} in
  let namedLogger := ResetNamed clogger "plugin" in
  (* Handle case where plugin is being ran in metadata-mode *)
  let '(cmd, namedLogger, clientTLSConfig) :=
    if isMetadataMode
    then (exec.appendEnv cmd [Sprintf_kv PluginMetadaModeEnv "true"],
          ResetNamed clogger "plugin.metadata",
          None)
    else (cmd, namedLogger, clientTLSConfig) in
  let client := plugin_NewClient {|
    HandshakeConfig := hs;
    Plugins := pluginMap;
    Cmd := cmd;
    TLSConfig := clientTLSConfig;
    SecureConfig := Some secureConfig;
    Logger := namedLogger
  |} in
  (Some client, None).

End Runner.

(** ** Starting the handle *)

(** Modelled from the spec: the state a start acts on is not part of the
    sources at hand.  It is the process table ("process table shows no new
    child", section 8) together with the handshakes attempted so far. *)
Record World : Type := mkWorld {
  procs : list exec.Cmd;
  handshakes : list exec.Cmd
}.

(** Modelled from the spec: go-plugin's start of a client, which spawns the
    child and performs the handshake, is not part of the sources at hand.
    The spec has the handle inert until first use (4.3, step 7); on use,
    "the plugin binary's observed digest must match [descriptor.expectedDigest]
    before any handshake proceeds; a mismatch is a fatal, non-retryable error
    ([ErrChecksumMismatch])" (step 5), verification coming before the spawn
    (section 9), and the child is torn down on a handshake failure
    (section 3, RPCClientHandle).  [binary] is the content of the plugin
    binary and [handshake] the outcome of the handshake, were it to run. *)
Definition Client_Start {T : GoTypes} (ErrChecksumMismatch : error)
    (binary : bytes) (handshake : option error)
    (c : plugin_Client) (w : World) : option error * World :=
  let cmd := Cmd (config c) in
  let verified :=
    match SecureConfig (config c) with
    | Some sc =>
        if bytes_eq_dec (Hash sc binary) (Checksum sc) then true else false
    | None => true
    end in
  if verified then
    let started :=
      {| procs := procs w ++ [cmd]; handshakes := handshakes w ++ [cmd] |} in
    match handshake with
    | None => (None, started)
    | Some e =>
        (Some e, {| procs := procs w; handshakes := handshakes started |})
    end
  else (Some ErrChecksumMismatch, w).

(** ** The environment the spec describes *)

(** The launch environment in the order the data model gives it: the
    caller's entries, the wrapped token, the mlock flag when the policy is
    on, the metadata flag in metadata mode. *)
Definition orderedLaunchEnv {T : GoTypes} {P : Package}
    (env : list string) (wrapToken : string) (mlock isMetadataMode : bool)
  : list string :=
  env ++ [Sprintf_kv PluginUnwrapTokenEnv wrapToken]
      ++ (if mlock then [Sprintf_kv PluginMlockEnabled "true"] else [])
      ++ (if isMetadataMode then [Sprintf_kv PluginMetadaModeEnv "true"]
          else []).

(** ** A sample host

    Concrete collaborators on which the statements below are exercised:
    errors are messages, a wrap yields its token, and the wrapping helper
    forwards whatever the host's [ResponseWrapData] answers. *)
Definition sampleTypes : GoTypes := {|
  error := string;
  PrivateKey := nat;
  tls_Config := string;
  plugin_Plugin := unit;
  plugin_HandshakeConfig := nat;
  log_Logger := unit;
  hclog_Logger := string;
  wrapping_ResponseWrapInfo := string
|}.

Definition samplePackage : @Package sampleTypes := {|
  sha256_New := fun b => rev b;
  PluginUnwrapTokenEnv := "VAULT_UNWRAP_TOKEN";
  PluginMlockEnabled := "VAULT_PLUGIN_MLOCK_ENABLED";
  PluginMetadaModeEnv := "VAULT_PLUGIN_METADATA_MODE";
  generateCert := fun _ => @Ok sampleTypes _ ([x30; x82], 7);
  createClientTLSConfig := fun _ _ => @Ok sampleTypes _ (Some "client-tls");
  wrapServerConfig := fun (sys : @RunnerUtil sampleTypes) certBytes _ =>
    match ResponseWrapData sys [("ServerCert", certBytes)] 60 true with
    | Ok info => Ok info
    | Err e => Err e
    end;
  ResetNamed := fun _ name => name
|}.

(** A host whose wrapping service answers with a token. *)
Definition sampleWrapper (mlock : bool) : @RunnerUtil sampleTypes := {|
  ResponseWrapData := fun _ _ _ => @Ok sampleTypes _ "s.4f2a";
  MlockEnabled := mlock
|}.

(** A host whose wrapping service is down. *)
Definition brokenWrapper : @RunnerUtil sampleTypes := {|
  ResponseWrapData := fun _ _ _ => @Err sampleTypes _ "wrapping unavailable";
  MlockEnabled := true
|}.

Definition sampleRunner (command : string) (args : list string)
  : @PluginRunner sampleTypes := {|
  Name := "mock-plugin";
  Command := command;
  Args := args;
  Sha256 := [x01; x02];
  Builtin := false;
  BuiltinFactory := None
|}.

Definition samplePlugins : string -> option unit := fun _ => None.

Definition echo : @PluginRunner sampleTypes := sampleRunner "echo" ["hello"].

(** The handle a launch on the sample host is expected to yield. *)
Definition sampleClient (command : string) (args env : list string)
    (tlsConfig : option string) (loggerName : string)
  : @plugin_Client sampleTypes :=
  let cmd := {| exec.Args := command :: args;
                exec.Env := env; exec.Process := None |} in
  let secureConfig :=
    {| Checksum := [x01; x02];
       Hash := sha256_New (Package := samplePackage) |} in
  @mkClient sampleTypes
    (@mkClientConfig sampleTypes 1 samplePlugins cmd tlsConfig
       (Some secureConfig) loggerName)
    None.

(** ** Go's strings and sort packages, as far as the help generator
    relies on them *)

(** [strings.TrimSpace]: the string without its leading and trailing white
    space, as Unicode defines it.  A Go string is a sequence of bytes; the
    white-space runes are the six of ASCII, U+0085 and U+00A0 (two bytes in
    UTF-8), and U+1680, U+2000 to U+200A, U+2028, U+2029, U+202F, U+205F and
    U+3000 (three bytes). *)
Module strings.

Definition isByte (n : N) (c : ascii) : bool := N.eqb (N_of_ascii c) n.

Definition asciiSpace (c : ascii) : bool :=
  (N.leb 9 (N_of_ascii c) && N.leb (N_of_ascii c) 13) || isByte 32 c.

Definition space2 (c1 c2 : ascii) : bool :=
  isByte 0xC2 c1 && (isByte 0x85 c2 || isByte 0xA0 c2).

Definition space3 (c1 c2 c3 : ascii) : bool :=
  (isByte 0xE1 c1 && isByte 0x9A c2 && isByte 0x80 c3)
  || (isByte 0xE2 c1 && isByte 0x80 c2
      && ((N.leb 0x80 (N_of_ascii c3) && N.leb (N_of_ascii c3) 0x8A)
          || isByte 0xA8 c3 || isByte 0xA9 c3 || isByte 0xAF c3))
  || (isByte 0xE2 c1 && isByte 0x81 c2 && isByte 0x9F c3)
  || (isByte 0xE3 c1 && isByte 0x80 c2 && isByte 0x80 c3).

(** Drops from the front of [l] the runes the tests accept: [t1] looks at
    one byte, [t2] at two, [t3] at three. *)
Fixpoint dropRunes (t1 : ascii -> bool) (t2 : ascii -> ascii -> bool)
    (t3 : ascii -> ascii -> ascii -> bool) (l : list ascii) : list ascii :=
  match l with
  | [] => []
  | c1 :: r1 =>
      if t1 c1 then dropRunes t1 t2 t3 r1
      else
        match r1 with
        | c2 :: r2 =>
            if t2 c1 c2 then dropRunes t1 t2 t3 r2
            else
              match r2 with
              | c3 :: r3 =>
                  if t3 c1 c2 c3 then dropRunes t1 t2 t3 r3 else l
              | [] => l
              end
        | [] => l
        end
  end.

(** [l] begins with a rune the tests accept. *)
Definition startsWith (t1 : ascii -> bool) (t2 : ascii -> ascii -> bool)
    (t3 : ascii -> ascii -> ascii -> bool) (l : list ascii) : bool :=
  match l with
  | [] => false
  | c1 :: r1 =>
      t1 c1
      || match r1 with
         | [] => false
         | c2 :: r2 =>
             t2 c1 c2
             || match r2 with
                | [] => false
                | c3 :: _ => t3 c1 c2 c3
                end
         end
  end.

(** Leading white space goes, read forwards. *)
Definition trimLeft : list ascii -> list ascii :=
  dropRunes asciiSpace space2 space3.

(** Trailing white space goes: the same on the bytes in reverse, a rune
    being met last byte first. *)
Definition trimLeftRev : list ascii -> list ascii :=
  dropRunes asciiSpace (fun c2 c1 => space2 c1 c2)
    (fun c3 c2 c1 => space3 c1 c2 c3).

Definition trimRight (l : list ascii) : list ascii :=
  rev (trimLeftRev (rev l)).

Definition TrimSpace (s : string) : string :=
  string_of_list_ascii (trimRight (trimLeft (list_ascii_of_string s))).

End strings.

(** [sort.Strings]: increasing order, strings compared byte by byte.  The
    order being total, the outcome does not depend on the algorithm. *)
Module sort.

Fixpoint insert (x : string) (l : list string) : list string :=
  match l with
  | [] => [x]
  | y :: l' => if String.leb x y then x :: l else y :: insert x l'
  end.

Fixpoint Strings (l : list string) : list string :=
  match l with
  | [] => []
  | x :: l' => insert x (Strings l')
  end.

End sort.

(** ** logical: the request, as far as the help generator reads it *)
Module logical.

Record Request : Type := mkRequest { Path : string }.

End logical.

(** ** framework: the help of a path (path_help.go) *)
Module framework.

(** One field in the template data ([Key], [Type], [Description], [URL]). *)
Record pathTemplateFieldData : Type := mkFieldData {
  fdKey : string;
  fdType : string;
  fdDescription : string;
  fdURL : bool
}.

(** The template data ([Request], [RoutePattern], [Synopsis],
    [Description], [Fields]). *)
Record pathTemplateData : Type := mkTemplateData {
  tdRequest : string;
  tdRoutePattern : string;
  tdSynopsis : string;
  tdDescription : string;
  tdFields : list pathTemplateFieldData
}.

(** What the help generator takes from the rest of the code base: the
    field types with their names, the callbacks and field data it does not
    look into, the responses with [logical.HelpResponse], and the template
    engine, [template_Parse name text] standing for
    [template.New(name).Parse(text)] and [template_Execute] for an
    execution into a fresh buffer.  A Go error is seen as its message, and
    a call that may fail yields its value ([inl]) or the error ([inr]). *)
Class Collaborators : Type := {
  FieldType : Type;
  FieldType_String : FieldType -> string;
  OperationFuncs : Type;
  FieldData : Type;
  Response : Type;
  HelpResponse : string -> list string -> Response;
  Template : Type;
  template_Parse : string -> string -> Template + string;
  template_Execute : Template -> pathTemplateData -> string + string
}.

(** What a Go function does: it returns, or it panics (here: on a nil
    pointer). *)
Inductive go (A : Type) : Type :=
| Return (a : A)
| Panic.
Arguments Return {A} a.
Arguments Panic {A}.

Section PathHelp.

Context {C : Collaborators}.

(** [FieldSchema], as far as the help reads it. *)
Record FieldSchema : Type := mkFieldSchema {
  Type_ : FieldType;
  Description : string
}.

(** [Path].  [Fields] is a Go map from names to schema pointers: it is
    given by its entries, each name once, in the order an iteration
    happens to visit them, a nil pointer being [None]. *)
Record Path : Type := mkPath {
  Pattern : string;
  Fields : list (string * option FieldSchema);
  Callbacks : OperationFuncs;
  HelpSynopsis : string;
  HelpDescription : string
}.

(** [p.Fields[k]]: nil when the name is absent. *)
Fixpoint lookupField (fields : list (string * option FieldSchema))
    (k : string) : option FieldSchema :=
  match fields with
  | [] => None
  | (k', schema) :: rest =>
      if String.eqb k' k then schema else lookupField rest k
  end.

Definition pathHelpTemplate : string := "
Request:        {{.Request}}
Matching Route: {{.RoutePattern}}

{{.Synopsis}}

## Parameters
{{range .Fields}}
### {{.Key}} (type: {{.Type}})

{{.Description}}
{{end}}
## Description

{{.Description}}
".

(** The body of the second loop, for the key [k]. *)
Definition fieldHelp (p : Path) (k : string) : go pathTemplateFieldData :=
  match lookupField (Fields p) k with
  | None => Panic
  | Some schema =>
      let description := strings.TrimSpace (Description schema) in
      let description :=
        if String.eqb description "" then "<no description>"
        else description in
      Return {| fdKey := k;
                fdType := FieldType_String (Type_ schema);
                fdDescription := description;
                fdURL := false |}
  end.

(** The second loop. *)
Fixpoint buildFields (p : Path) (fieldKeys : list string)
  : go (list pathTemplateFieldData) :=
  match fieldKeys with
  | [] => Return []
  | k :: rest =>
      match fieldHelp p k with
      | Panic => Panic
      | Return fd =>
          match buildFields p rest with
          | Panic => Panic
          | Return fds => Return (fd :: fds)
          end
      end
  end.

(** [helpCallback], up to the template: the data it hands to the
    engine. *)
Definition helpData (p : Path) (req : logical.Request)
  : go pathTemplateData :=
  (* Alphabetize the fields *)
  let fieldKeys := map fst (Fields p) in
  let fieldKeys := sort.Strings fieldKeys in
  (* Build the field help *)
  match buildFields p fieldKeys with
  | Panic => Panic
  | Return fields =>
      Return {| tdRequest := logical.Path req;
                tdRoutePattern := Pattern p;
                tdSynopsis := strings.TrimSpace (HelpSynopsis p);
                tdDescription := strings.TrimSpace (HelpDescription p);
                tdFields := fields |}
  end.

Definition helpCallback (p : Path) (req : logical.Request) (data : FieldData)
  : go (option Response * option string) :=
  match helpData p req with
  | Panic => Panic
  | Return tplData =>
      (* Parse the help template *)
      match template_Parse "root" pathHelpTemplate with
      | inr err => Return (None, Some ("error parsing template: " ++ err))
      | inl tpl =>
          (* Execute the template and store the output *)
          match template_Execute tpl tplData with
          | inr err =>
              Return (None, Some ("error executing template: " ++ err))
          | inl buf =>
              Return (Some (HelpResponse (strings.TrimSpace buf) []), None)
          end
      end
  end.

End PathHelp.

End framework.

(** *** A sample back end

    Field types are their names; a response is its help text; the sample
    engine renders the request and the field keys only. *)
Definition sampleCollaborators : framework.Collaborators := {|
  framework.FieldType := string;
  framework.FieldType_String := fun t => t;
  framework.OperationFuncs := unit;
  framework.FieldData := unit;
  framework.Response := string;
  framework.HelpResponse := fun text _ => text;
  framework.Template := string;
  framework.template_Parse := fun _ text => inl text;
  framework.template_Execute := fun _ d =>
    inl (" " ++ framework.tdRequest d ++ ":"
         ++ String.concat "," (map framework.fdKey (framework.tdFields d))
         ++ " ")
|}.

Definition samplePath : @framework.Path sampleCollaborators :=
  @framework.mkPath sampleCollaborators "creds/(?P<name>\w+)"
    [("ttl", Some (@framework.mkFieldSchema sampleCollaborators "duration"
                     "  Lifetime of the credential.  "));
     ("name", Some (@framework.mkFieldSchema sampleCollaborators "string"
                      " "))]
    tt " Issue credentials " "".

(** The same path, its fields visited in the other order. *)
Definition samplePathReordered : @framework.Path sampleCollaborators :=
  @framework.mkPath sampleCollaborators "creds/(?P<name>\w+)"
    (rev (framework.Fields samplePath)) tt " Issue credentials " "".

(** A path with a field registered without a schema. *)
Definition samplePathNilSchema : @framework.Path sampleCollaborators :=
  @framework.mkPath sampleCollaborators "creds/(?P<name>\w+)"
    (("lease", None) :: framework.Fields samplePath) tt
    " Issue credentials " "".

Definition sampleRequest : logical.Request := logical.mkRequest "creds/bob".

(** The template data expected for [samplePath]. *)
Definition sampleHelpData : framework.pathTemplateData := {|
  framework.tdRequest := "creds/bob";
  framework.tdRoutePattern := "creds/(?P<name>\w+)";
  framework.tdSynopsis := "Issue credentials";
  framework.tdDescription := "";
  framework.tdFields :=
    [ {| framework.fdKey := "name"; framework.fdType := "string";
         framework.fdDescription := "<no description>";
         framework.fdURL := false |};
      {| framework.fdKey := "ttl"; framework.fdType := "duration";
         framework.fdDescription := "Lifetime of the credential.";
         framework.fdURL := false |} ]
|}.

(** ** A plugin's main, as the integration tests write it

    [TestBackend_PluginMainLogical] and [TestBackend_PluginMainCredentials]
    differ in the backend factory only.  Each returns at once unless the
    launcher's token variable is set, fails when no CA file is named in the
    environment, and otherwise parses [--ca-cert=<file>] and serves with
    the TLS config [GetTLSConfig] gives.  [Getenv] is [os.Getenv]: the value
    of a variable, empty when unset. *)
Inductive PluginMain : Type :=
| NotLaunched
| Fatal (msg : string)
| Served (tlsConfig : option api_TLSConfig).

Definition TestBackend_PluginMain (PluginUnwrapTokenEnv PluginCACertPEMEnv : string)
    (Getenv : string -> string) : PluginMain :=
  if Getenv PluginUnwrapTokenEnv =? "" then NotLaunched
  else
    let caPEM := Getenv PluginCACertPEMEnv in
    if caPEM =? "" then Fatal "CA cert not passed in"
    else
      let args := ["--ca-cert=" ++ caPEM] in
      let apiClientMeta := zeroAPIClientMeta in
      let flags := FlagSet apiClientMeta in
      let (apiClientMeta, _) := flag.Parse flags args in
      let tlsConfig := GetTLSConfig apiClientMeta in
      Served tlsConfig.

(** The formal flags of [APIClientMeta.FlagSet]. *)
Definition formalFlags : list (flag.Flag APIClientMeta) :=
  fst (FlagSet zeroAPIClientMeta).

(** * Properties *)

Unset Implicit Arguments.

(** ** Environment entries *)

Lemma envKey_Sprintf_kv (k v : string) :
  noEq k = true -> envKey (Sprintf_kv k v) = Some k.
Proof.
  unfold Sprintf_kv. change ("=" ++ v) with (String "="%char v).
  induction k as [|a k IH]; simpl; intros Hk.
  - reflexivity.
  - apply andb_true_iff in Hk as [Ha Hk].
    apply negb_true_iff in Ha. rewrite Ha, (IH Hk). reflexivity.
Qed.

Lemma setsVar_Sprintf_kv (name k v : string) :
  noEq k = true -> setsVar name (Sprintf_kv k v) = String.eqb k name.
Proof.
  intros Hk. unfold setsVar. rewrite (envKey_Sprintf_kv k v Hk). reflexivity.
Qed.

Lemma Sprintf_kv_key_inj (k1 v1 k2 v2 : string) :
  noEq k1 = true -> noEq k2 = true ->
  Sprintf_kv k1 v1 = Sprintf_kv k2 v2 -> k1 = k2.
Proof.
  intros H1 H2 E.
  pose proof (envKey_Sprintf_kv k1 v1 H1) as E1.
  rewrite E, (envKey_Sprintf_kv k2 v2 H2) in E1. congruence.
Qed.

Lemma countVar_app (name : string) (a b : list string) :
  countVar name (a ++ b) = countVar name a + countVar name b.
Proof.
  unfold countVar. rewrite filter_app, length_app. reflexivity.
Qed.

Lemma countVar_entry (name k v : string) :
  noEq k = true ->
  countVar name [Sprintf_kv k v] = if String.eqb k name then 1 else 0.
Proof.
  intros Hk. unfold countVar. simpl. rewrite (setsVar_Sprintf_kv name k v Hk).
  destruct (String.eqb k name); reflexivity.
Qed.

Section RunnerProperties.

Context {T : GoTypes} {P : Package}.

Variable r : PluginRunner.
Variable wrapper : RunnerUtil.
Variable pluginMap : string -> option plugin_Plugin.
Variable hs : plugin_HandshakeConfig.
Variable lg : log_Logger.

(** ** What [Run] returns *)

(** The client [Run] builds once the three preparatory steps have yielded
    [clientTLSConfig] and [wrapToken]. *)
Lemma Run_ok (env : list string) (isMetadataMode : bool)
    (certBytes : bytes) (key : PrivateKey)
    (clientTLSConfig : option tls_Config) (wrapToken : string) :
  generateCert tt = Ok (certBytes, key) ->
  createClientTLSConfig certBytes key = Ok clientTLSConfig ->
  wrapServerConfig wrapper certBytes key = Ok wrapToken ->
  Run r wrapper pluginMap hs env lg isMetadataMode =
  (Some (plugin_NewClient {|
     HandshakeConfig := hs;
     Plugins := pluginMap;
     Cmd := {| exec.Args := Command r :: Args r;
               exec.Env := orderedLaunchEnv env wrapToken
                             (MlockEnabled wrapper) isMetadataMode;
               exec.Process := None |};
     TLSConfig := if isMetadataMode then None else clientTLSConfig;
     SecureConfig := Some {| Checksum := Sha256 r; Hash := sha256_New |};
     Logger := ResetNamed {| logger := lg |}
                 (if isMetadataMode then "plugin.metadata" else "plugin")
   |}), None).
Proof.
  intros Hcert Htls Hwrap. unfold Run, orderedLaunchEnv.
  rewrite Hcert, Htls, Hwrap.
  destruct isMetadataMode, (MlockEnabled wrapper);
    unfold plugin_NewClient, exec.appendEnv, exec.Command; simpl;
    rewrite <- ?app_assoc; simpl; rewrite ?app_nil_r; reflexivity.
Qed.

(** A returned handle determines the steps that produced it. *)
Lemma Run_inv (env : list string) (isMetadataMode : bool)
    (c : plugin_Client) (oe : option error) :
  Run r wrapper pluginMap hs env lg isMetadataMode = (Some c, oe) ->
  exists certBytes key clientTLSConfig wrapToken,
    generateCert tt = Ok (certBytes, key)
    /\ createClientTLSConfig certBytes key = Ok clientTLSConfig
    /\ wrapServerConfig wrapper certBytes key = Ok wrapToken
    /\ oe = None
    /\ exec.Env (Cmd (config c)) =
         orderedLaunchEnv env wrapToken (MlockEnabled wrapper) isMetadataMode
    /\ TLSConfig (config c) =
         (if isMetadataMode then None else clientTLSConfig)
    /\ SecureConfig (config c) =
         Some {| Checksum := Sha256 r; Hash := sha256_New |}
    /\ exec.Args (Cmd (config c)) = Command r :: Args r
    /\ process c = None
    /\ exec.Process (Cmd (config c)) = None.
Proof.
  intros HRun.
  destruct (generateCert tt) as [[certBytes key]|e] eqn:Hcert;
    [|unfold Run in HRun; rewrite Hcert in HRun; discriminate].
  destruct (createClientTLSConfig certBytes key) as [tls|e] eqn:Htls;
    [|unfold Run in HRun; rewrite Hcert, Htls in HRun; discriminate].
  destruct (wrapServerConfig wrapper certBytes key) as [tok|e] eqn:Hwrap;
    [|unfold Run in HRun; rewrite Hcert, Htls, Hwrap in HRun; discriminate].
  rewrite (Run_ok env isMetadataMode _ _ _ _ Hcert Htls Hwrap) in HRun.
  inversion HRun; subst.
  exists certBytes, key, tls, tok. simpl.
  repeat split; first [assumption | reflexivity].
Qed.

(** The handle [Run] returns is inert: neither the command nor the client
    has a process. *)
Lemma Run_starts_nothing (env : list string) (isMetadataMode : bool)
    (c : plugin_Client) (oe : option error) :
  Run r wrapper pluginMap hs env lg isMetadataMode = (Some c, oe) ->
  process c = None /\ exec.Process (Cmd (config c)) = None.
Proof.
  intros HRun.
  destruct (Run_inv env isMetadataMode c oe HRun)
    as (_ & _ & _ & _ & _ & _ & _ & _ & _ & _ & _ & _ & Hp & Hcmd).
  split; assumption.
Qed.

End RunnerProperties.

(** ** Counting in the assembled environment *)

Section LaunchEnv.

Context {T : GoTypes} {P : Package}.

Lemma countVar_orderedLaunchEnv (name : string) (env : list string)
    (wrapToken : string) (mlock isMetadataMode : bool) :
  envNamesDistinct P ->
  countVar name (orderedLaunchEnv env wrapToken mlock isMetadataMode)
  = countVar name env
    + (if String.eqb PluginUnwrapTokenEnv name then 1 else 0)
    + (if mlock && String.eqb PluginMlockEnabled name then 1 else 0)
    + (if isMetadataMode && String.eqb PluginMetadaModeEnv name
       then 1 else 0).
Proof.
  intros (HU & HM & HD & _). unfold orderedLaunchEnv.
  rewrite !countVar_app, (countVar_entry name _ wrapToken HU).
  destruct mlock, isMetadataMode; simpl andb;
    rewrite ?(countVar_entry name _ "true" HM),
            ?(countVar_entry name _ "true" HD);
    change (countVar name []) with 0; cbv iota; lia.
Qed.

Lemma In_orderedLaunchEnv (x : string) (env : list string)
    (wrapToken : string) (mlock isMetadataMode : bool) :
  In x (orderedLaunchEnv env wrapToken mlock isMetadataMode)
  <-> In x env
      \/ x = Sprintf_kv PluginUnwrapTokenEnv wrapToken
      \/ (mlock = true /\ x = Sprintf_kv PluginMlockEnabled "true")
      \/ (isMetadataMode = true /\ x = Sprintf_kv PluginMetadaModeEnv "true").
Proof.
  unfold orderedLaunchEnv. rewrite !in_app_iff.
  destruct mlock, isMetadataMode; simpl; intuition congruence.
Qed.

End LaunchEnv.

(** ** The launch *)

Section Launch.

Context {T : GoTypes} {P : Package}.

Variable r : PluginRunner.
Variable wrapper : RunnerUtil.
Variable pluginMap : string -> option plugin_Plugin.
Variable hs : plugin_HandshakeConfig.
Variable lg : log_Logger.

Local Abbreviation launchEnv c := (exec.Env (Cmd (config c))).

(** C8.  On every successful launch the environment of the subprocess is,
    in this order: the caller-supplied entries, the wrapped-token variable
    holding the token the wrapping step produced, the mlock-enabled variable
    when mlock is enabled, and the metadata-mode variable in metadata
    mode. *)
Theorem Run_env_order (env : list string) (isMetadataMode : bool)
    (c : plugin_Client) :
  Run r wrapper pluginMap hs env lg isMetadataMode = (Some c, None) ->
  exists certBytes key wrapToken,
    generateCert tt = Ok (certBytes, key)
    /\ wrapServerConfig wrapper certBytes key = Ok wrapToken
    /\ launchEnv c =
         (env ++ [Sprintf_kv PluginUnwrapTokenEnv wrapToken]
              ++ (if MlockEnabled wrapper
                  then [Sprintf_kv PluginMlockEnabled "true"] else [])
              ++ (if isMetadataMode
                  then [Sprintf_kv PluginMetadaModeEnv "true"] else []))%list.
Proof.
  intros HRun.
  destruct (Run_inv r wrapper pluginMap hs lg env isMetadataMode c None HRun)
    as (certBytes & key & tls & tok & Hcert & _ & Hwrap & _ & HEnv & _).
  exists certBytes, key, tok. repeat split; assumption.
Qed.

(** C9.  Whenever [Run] returns a handle, in metadata mode or not, the
    handle's secure config requires the descriptor's [Sha256] as checksum,
    under the SHA-256 hash; metadata mode switches off the client TLS
    config and nothing else of the two. *)
Theorem Run_secure_config (env : list string) (isMetadataMode : bool)
    (c : plugin_Client) :
  Run r wrapper pluginMap hs env lg isMetadataMode = (Some c, None) ->
  SecureConfig (config c)
    = Some {| Checksum := Sha256 r; Hash := sha256_New |}
  /\ (isMetadataMode = true -> TLSConfig (config c) = None)
  /\ (isMetadataMode = false ->
      exists certBytes key,
        generateCert tt = Ok (certBytes, key)
        /\ createClientTLSConfig certBytes key = Ok (TLSConfig (config c))).
Proof.
  intros HRun.
  destruct (Run_inv r wrapper pluginMap hs lg env isMetadataMode c None HRun)
    as (certBytes & key & tls & tok & Hcert & Htls & _ & _ & _ & HT & HS & _).
  split; [exact HS|]. split; intros ->.
  - exact HT.
  - exists certBytes, key. rewrite HT. split; assumption.
Qed.

(** The gate is a gate: a start on a binary with the required digest goes
    on to spawn the child and to attempt the handshake. *)
Lemma Client_Start_matching_digest (ErrChecksumMismatch : error)
    (binary : bytes) (c : plugin_Client) (sc : plugin_SecureConfig)
    (w : World) :
  SecureConfig (config c) = Some sc ->
  Hash sc binary = Checksum sc ->
  Client_Start ErrChecksumMismatch binary None c w
  = (None, {| procs := procs w ++ [Cmd (config c)];
              handshakes := handshakes w ++ [Cmd (config c)] |}).
Proof.
  intros HS Hdigest. unfold Client_Start. rewrite HS.
  destruct (bytes_eq_dec (Hash sc binary) (Checksum sc)) as [_|Hne].
  - reflexivity.
  - contradiction.
Qed.

(** C2.  [Run] configures every handle it returns with the descriptor's
    [Sha256] as the checksum to meet and SHA-256 as the hash.  Starting
    such a handle on a binary whose digest differs returns the
    checksum-mismatch error and leaves the world as it was: no child in the
    process table, no handshake attempted. *)
Theorem Run_checksum_gate (env : list string) (isMetadataMode : bool)
    (c : plugin_Client) :
  Run r wrapper pluginMap hs env lg isMetadataMode = (Some c, None) ->
  SecureConfig (config c)
    = Some {| Checksum := Sha256 r; Hash := sha256_New |}
  /\ forall (ErrChecksumMismatch : error) (binary : bytes)
       (handshake : option error) (w : World),
       sha256_New binary <> Sha256 r ->
       Client_Start ErrChecksumMismatch binary handshake c w
       = (Some ErrChecksumMismatch, w).
Proof.
  intros HRun.
  destruct (Run_inv r wrapper pluginMap hs lg env isMetadataMode c None HRun)
    as (_ & _ & _ & _ & _ & _ & _ & _ & _ & _ & HS & _).
  split; [exact HS|].
  intros Emis binary handshake w Hdigest.
  unfold Client_Start. rewrite HS. simpl.
  destruct (bytes_eq_dec (sha256_New binary) (Sha256 r)) as [Heq|_].
  - contradiction.
  - reflexivity.
Qed.

(** C3.  When the wrapping step fails, [Run] returns the nil handle
    together with the error of the wrapping step, unchanged.  No command
    has been built at that point and no environment assembled, so nothing
    can be started and no certificate material is handed on. *)
Theorem Run_wrap_failure (env : list string) (isMetadataMode : bool)
    (certBytes : bytes) (key : PrivateKey)
    (clientTLSConfig : option tls_Config) (e : error) :
  generateCert tt = Ok (certBytes, key) ->
  createClientTLSConfig certBytes key = Ok clientTLSConfig ->
  wrapServerConfig wrapper certBytes key = Err e ->
  Run r wrapper pluginMap hs env lg isMetadataMode = (None, Some e).
Proof.
  intros Hcert Htls Hwrap. unfold Run. rewrite Hcert, Htls, Hwrap.
  reflexivity.
Qed.

(** C4, amended.  [Run] does not validate the descriptor.  It fails exactly
    when certificate generation, the client TLS configuration or the
    wrapping fails, and then returns that step's own error with a nil
    handle; when the three succeed it returns a handle whatever the
    descriptor, also for a descriptor that is not built-in and has no
    command, whose empty command it puts in the handle as it is. *)
Theorem Run_error_paths (env : list string) (isMetadataMode : bool) :
  (forall e : error,
     Run r wrapper pluginMap hs env lg isMetadataMode = (None, Some e)
     <-> generateCert tt = Err e
         \/ (exists certBytes key,
               generateCert tt = Ok (certBytes, key)
               /\ createClientTLSConfig certBytes key = Err e)
         \/ (exists certBytes key clientTLSConfig,
               generateCert tt = Ok (certBytes, key)
               /\ createClientTLSConfig certBytes key = Ok clientTLSConfig
               /\ wrapServerConfig wrapper certBytes key = Err e))
  /\ (forall certBytes key clientTLSConfig wrapToken,
        generateCert tt = Ok (certBytes, key) ->
        createClientTLSConfig certBytes key = Ok clientTLSConfig ->
        wrapServerConfig wrapper certBytes key = Ok wrapToken ->
        exists c,
          Run r wrapper pluginMap hs env lg isMetadataMode = (Some c, None)
          /\ exec.Args (Cmd (config c)) = Command r :: Args r).
Proof.
  split.
  - intros e. split.
    + intros HRun.
      destruct (generateCert tt) as [[cb key]|e1] eqn:Hcert.
      * destruct (createClientTLSConfig cb key) as [tls|e2] eqn:Htls.
        -- destruct (wrapServerConfig wrapper cb key) as [tok|e3] eqn:Hwrap.
           ++ rewrite (Run_ok r wrapper pluginMap hs lg env isMetadataMode
                         cb key tls tok Hcert Htls Hwrap) in HRun.
              discriminate.
           ++ unfold Run in HRun. rewrite Hcert, Htls, Hwrap in HRun.
              inversion HRun; subst.
              right; right. exists cb, key, tls.
              repeat split; first [assumption | reflexivity].
        -- unfold Run in HRun. rewrite Hcert, Htls in HRun.
           inversion HRun; subst.
           right; left. exists cb, key.
           split; first [assumption | reflexivity].
      * unfold Run in HRun. rewrite Hcert in HRun.
        inversion HRun; subst. left; reflexivity.
    + intros [Hcert|[(cb & key & Hcert & Htls)
                    |(cb & key & tls & Hcert & Htls & Hwrap)]];
        unfold Run.
      * rewrite Hcert; reflexivity.
      * rewrite Hcert, Htls; reflexivity.
      * rewrite Hcert, Htls, Hwrap; reflexivity.
  - intros cb key tls tok Hcert Htls Hwrap.
    eexists. split.
    + apply (Run_ok r wrapper pluginMap hs lg env isMetadataMode
               cb key tls tok Hcert Htls Hwrap).
    + reflexivity.
Qed.

(** C1, amended.  In metadata mode the environment [Run] assembles holds
    the metadata-mode variable, set to [true], in addition to the
    wrapped-token variable, which is injected in every mode: each of the two
    is set once more than in the caller-supplied environment.  The client
    config carries no TLS material: its TLS config is nil. *)
Theorem Run_metadata_mode (env : list string) (c : plugin_Client) :
  envNamesDistinct P ->
  Run r wrapper pluginMap hs env lg true = (Some c, None) ->
  (exists certBytes key wrapToken,
     generateCert tt = Ok (certBytes, key)
     /\ wrapServerConfig wrapper certBytes key = Ok wrapToken
     /\ In (Sprintf_kv PluginUnwrapTokenEnv wrapToken) (launchEnv c))
  /\ In (Sprintf_kv PluginMetadaModeEnv "true") (launchEnv c)
  /\ countVar PluginUnwrapTokenEnv (launchEnv c)
     = countVar PluginUnwrapTokenEnv env + 1
  /\ countVar PluginMetadaModeEnv (launchEnv c)
     = countVar PluginMetadaModeEnv env + 1
  /\ TLSConfig (config c) = None.
Proof.
  intros Hnames HRun.
  destruct (Run_inv r wrapper pluginMap hs lg env true c None HRun)
    as (certBytes & key & tls & tok & Hcert & _ & Hwrap & _ & HEnv & HT & _).
  rewrite HEnv.
  split; [|split; [|split; [|split]]].
  - exists certBytes, key, tok. repeat split; try assumption.
    apply In_orderedLaunchEnv. right; left; reflexivity.
  - apply In_orderedLaunchEnv. right; right; right. split; reflexivity.
  - rewrite (countVar_orderedLaunchEnv _ _ _ _ _ Hnames).
    destruct Hnames as (_ & _ & _ & HUM & HUD & HMD).
    rewrite String.eqb_refl.
    apply not_eq_sym, String.eqb_neq in HUM, HUD. rewrite HUM, HUD.
    rewrite andb_false_r. simpl. lia.
  - rewrite (countVar_orderedLaunchEnv _ _ _ _ _ Hnames).
    destruct Hnames as (_ & _ & _ & HUM & HUD & HMD).
    rewrite String.eqb_refl.
    apply String.eqb_neq in HUD, HMD. rewrite HUD, HMD.
    rewrite andb_false_r. simpl. lia.
  - exact HT.
Qed.

(** C5.  A descriptor with command [echo] and arguments [hello], metadata
    mode off, an empty caller-supplied environment, certificate generation
    and wrapping succeeding: [Run] returns a handle and no error (whatever
    the descriptor's digest, which [Run] only records), and the environment
    of the subprocess is the wrapped-token variable followed, exactly when
    the mlock policy is on, by the mlock variable.  It holds exactly one
    wrapped-token variable, one mlock variable if the policy is on and none
    otherwise, and nothing else. *)
Theorem Run_echo_hello (certBytes : bytes) (key : PrivateKey)
    (clientTLSConfig : option tls_Config) (wrapToken : string) :
  envNamesDistinct P ->
  Command r = "echo" -> Args r = ["hello"] ->
  generateCert tt = Ok (certBytes, key) ->
  createClientTLSConfig certBytes key = Ok clientTLSConfig ->
  wrapServerConfig wrapper certBytes key = Ok wrapToken ->
  exists c,
    Run r wrapper pluginMap hs [] lg false = (Some c, None)
    /\ exec.Args (Cmd (config c)) = ["echo"; "hello"]
    /\ launchEnv c =
         Sprintf_kv PluginUnwrapTokenEnv wrapToken
         :: (if MlockEnabled wrapper
             then [Sprintf_kv PluginMlockEnabled "true"] else [])
    /\ countVar PluginUnwrapTokenEnv (launchEnv c) = 1
    /\ countVar PluginMlockEnabled (launchEnv c)
       = (if MlockEnabled wrapper then 1 else 0)
    /\ length (launchEnv c) = 1 + (if MlockEnabled wrapper then 1 else 0).
Proof.
  intros Hnames Hcmd Hargs Hcert Htls Hwrap.
  eexists. split.
  - apply (Run_ok r wrapper pluginMap hs lg [] false
             certBytes key clientTLSConfig wrapToken Hcert Htls Hwrap).
  - cbn [config Cmd exec.Args exec.Env plugin_NewClient].
    rewrite Hcmd, Hargs.
    rewrite !(countVar_orderedLaunchEnv _ _ _ _ _ Hnames).
    destruct Hnames as (_ & _ & _ & HUM & HUD & HMD).
    rewrite !String.eqb_refl.
    pose proof HUM as HMU. apply not_eq_sym in HMU.
    apply String.eqb_neq in HUM, HMU. rewrite HUM, HMU.
    unfold orderedLaunchEnv.
    destruct (MlockEnabled wrapper); simpl; repeat split; reflexivity.
Qed.

(** C7, amended.  [Run] appends the mlock-enabled variable, set to [true],
    exactly when [wrapper.MlockEnabled()] is true.  The assembled
    environment thus holds that entry if and only if the policy is on or the
    caller-supplied environment already held it, and it sets the variable
    once more than the caller's environment when the policy is on, as often
    otherwise. *)
Theorem Run_mlock_env (env : list string) (isMetadataMode : bool)
    (c : plugin_Client) :
  envNamesDistinct P ->
  Run r wrapper pluginMap hs env lg isMetadataMode = (Some c, None) ->
  (In (Sprintf_kv PluginMlockEnabled "true") (launchEnv c)
   <-> MlockEnabled wrapper = true
       \/ In (Sprintf_kv PluginMlockEnabled "true") env)
  /\ countVar PluginMlockEnabled (launchEnv c)
     = countVar PluginMlockEnabled env
       + (if MlockEnabled wrapper then 1 else 0).
Proof.
  intros Hnames HRun.
  destruct (Run_inv r wrapper pluginMap hs lg env isMetadataMode c None HRun)
    as (certBytes & key & tls & tok & _ & _ & _ & _ & HEnv & _).
  rewrite HEnv. split.
  - rewrite In_orderedLaunchEnv.
    destruct Hnames as (HU & HM & HD & HUM & HUD & HMD).
    split.
    + intros [Hin|[Heq|[[Hm _]|[_ Heq]]]].
      * right; exact Hin.
      * apply Sprintf_kv_key_inj in Heq; [|assumption..].
        symmetry in Heq. contradiction.
      * left; exact Hm.
      * apply Sprintf_kv_key_inj in Heq; [|assumption..]. contradiction.
    + intros [Hm|Hin].
      * right; right; left. split; [exact Hm|reflexivity].
      * left; exact Hin.
  - rewrite (countVar_orderedLaunchEnv _ _ _ _ _ Hnames).
    destruct Hnames as (_ & _ & _ & HUM & HUD & HMD).
    rewrite String.eqb_refl.
    apply not_eq_sym in HMD.
    apply String.eqb_neq in HUM, HMD. rewrite HUM, HMD.
    rewrite andb_false_r, andb_true_r. lia.
Qed.

End Launch.

(** ** The command-line TLS override *)

Lemma tlsFlagSet_test (f : APIClientMeta) :
  tlsFlagSet f
  <-> negb (flagCACert f =? "") || negb (flagCAPath f =? "")
      || negb (flagClientCert f =? "") || negb (flagClientKey f =? "")
      || flagInsecure f = true.
Proof.
  unfold tlsFlagSet.
  rewrite !orb_true_iff, !negb_true_iff, !String.eqb_neq. tauto.
Qed.

(** C6.  When a TLS-related flag is set, [GetTLSConfig] returns a config
    whose [CACert], [CAPath], [ClientCert], [ClientKey] and [Insecure] are
    the values of the flags (and whose server name is empty); when none is
    set it returns nil.  Invoked with
    [--ca-cert=/tmp/ca.pem --client-cert=/tmp/c.pem --client-key=/tmp/c.key]
    the parse succeeds and the config is not nil, with [Insecure] false;
    invoked without flags the override is nil. *)
Theorem GetTLSConfig_override :
  (forall f : APIClientMeta,
     tlsFlagSet f ->
     GetTLSConfig f = Some {|
       CACert := flagCACert f;
       CAPath := flagCAPath f;
       ClientCert := flagClientCert f;
       ClientKey := flagClientKey f;
       TLSServerName := "";
       Insecure := flagInsecure f |})
  /\ (forall f : APIClientMeta, ~ tlsFlagSet f -> GetTLSConfig f = None)
  /\ (exists f t,
        parseArgs ["--ca-cert=/tmp/ca.pem"; "--client-cert=/tmp/c.pem";
                   "--client-key=/tmp/c.key"] = (f, None)
        /\ GetTLSConfig f = Some t
        /\ CACert t = "/tmp/ca.pem" /\ ClientCert t = "/tmp/c.pem"
        /\ ClientKey t = "/tmp/c.key" /\ Insecure t = false)
  /\ (exists f, parseArgs [] = (f, None) /\ GetTLSConfig f = None).
Proof.
  split; [|split; [|split]].
  - intros f Hset. apply tlsFlagSet_test in Hset.
    unfold GetTLSConfig. rewrite Hset. reflexivity.
  - intros f Hunset. unfold GetTLSConfig.
    destruct (negb (flagCACert f =? "") || negb (flagCAPath f =? "")
              || negb (flagClientCert f =? "") || negb (flagClientKey f =? "")
              || flagInsecure f) eqn:Htest.
    + exfalso. apply Hunset, tlsFlagSet_test, Htest.
    + reflexivity.
  - eexists. eexists. split; [reflexivity|]. split; [reflexivity|].
    repeat split; reflexivity.
  - eexists. split; reflexivity.
Qed.

(** What the parse makes of a lone [--metadata] flag. *)
Lemma parseArgs_metadata_value (v : string) (b : bool) :
  flag.ParseBool v = Some b ->
  parseArgs ["--metadata=" ++ v] = (set_flagMetadata b zeroAPIClientMeta, None).
Proof.
  intros Hv. unfold parseArgs, flag.Parse. cbn. rewrite Hv. reflexivity.
Qed.

Lemma parseArgs_metadata_bare :
  parseArgs ["--metadata"] = (set_flagMetadata true zeroAPIClientMeta, None).
Proof. reflexivity. Qed.

(** A flag given its default value on the command line leaves no trace. *)
Lemma parseArgs_explicit_default :
  parseArgs ["--tls-skip-verify=false"; "--ca-cert="] = parseArgs [].
Proof. reflexivity. Qed.

(** C10.  With the five TLS-related flags at their defaults, whatever the
    value of [--metadata], [GetTLSConfig] returns nil: the metadata flag is
    not a TLS-related flag.  [FetchMetadata] returns the value of the
    metadata flag. *)
Theorem GetTLSConfig_metadata_only (f : APIClientMeta) :
  flagCACert f = "" -> flagCAPath f = "" -> flagClientCert f = "" ->
  flagClientKey f = "" -> flagInsecure f = false ->
  GetTLSConfig f = None /\ FetchMetadata f = flagMetadata f.
Proof.
  intros H1 H2 H3 H4 H5. unfold GetTLSConfig, FetchMetadata.
  rewrite H1, H2, H3, H4, H5. split; reflexivity.
Qed.

(** ** More on the launch *)

Section LaunchMore.

Context {T : GoTypes} {P : Package}.

Variable wrapper : RunnerUtil.

Local Abbreviation launchEnv c := (exec.Env (Cmd (config c))).

(** The client behind a handle, in full. *)
Lemma Run_client (r : PluginRunner)
    (pluginMap : string -> option plugin_Plugin)
    (hs : plugin_HandshakeConfig) (env : list string) (lg : log_Logger)
    (isMetadataMode : bool) (c : plugin_Client) (oe : option error) :
  Run r wrapper pluginMap hs env lg isMetadataMode = (Some c, oe) ->
  exists certBytes key clientTLSConfig wrapToken,
    generateCert tt = Ok (certBytes, key)
    /\ createClientTLSConfig certBytes key = Ok clientTLSConfig
    /\ wrapServerConfig wrapper certBytes key = Ok wrapToken
    /\ oe = None
    /\ c = plugin_NewClient {|
         HandshakeConfig := hs;
         Plugins := pluginMap;
         Cmd := {| exec.Args := Command r :: Args r;
                   exec.Env := orderedLaunchEnv env wrapToken
                                 (MlockEnabled wrapper) isMetadataMode;
                   exec.Process := None |};
         TLSConfig := if isMetadataMode then None else clientTLSConfig;
         SecureConfig := Some {| Checksum := Sha256 r; Hash := sha256_New |};
         Logger := ResetNamed {| logger := lg |}
                     (if isMetadataMode then "plugin.metadata" else "plugin")
       |}.
Proof.
  intros HRun.
  destruct (generateCert tt) as [[certBytes key]|e] eqn:Hcert;
    [|unfold Run in HRun; rewrite Hcert in HRun; discriminate].
  destruct (createClientTLSConfig certBytes key) as [tls|e] eqn:Htls;
    [|unfold Run in HRun; rewrite Hcert, Htls in HRun; discriminate].
  destruct (wrapServerConfig wrapper certBytes key) as [tok|e] eqn:Hwrap;
    [|unfold Run in HRun; rewrite Hcert, Htls, Hwrap in HRun; discriminate].
  rewrite (Run_ok r wrapper pluginMap hs lg env isMetadataMode
             _ _ _ _ Hcert Htls Hwrap) in HRun.
  inversion HRun; subst.
  exists certBytes, key, tls, tok.
  repeat split; first [assumption | reflexivity].
Qed.

(** X1.  [Run] returns either a handle and a nil error, or a nil handle and
    an error: never both, never neither. *)
Theorem Run_handle_xor_error (r : PluginRunner)
    (pluginMap : string -> option plugin_Plugin)
    (hs : plugin_HandshakeConfig) (env : list string) (lg : log_Logger)
    (isMetadataMode : bool) :
  (exists c,
     Run r wrapper pluginMap hs env lg isMetadataMode = (Some c, None))
  \/ (exists e,
        Run r wrapper pluginMap hs env lg isMetadataMode = (None, Some e)).
Proof.
  destruct (generateCert tt) as [[certBytes key]|e] eqn:Hcert.
  - destruct (createClientTLSConfig certBytes key) as [tls|e] eqn:Htls.
    + destruct (wrapServerConfig wrapper certBytes key) as [tok|e] eqn:Hwrap.
      * left. eexists.
        apply (Run_ok r wrapper pluginMap hs lg env isMetadataMode
                 _ _ _ _ Hcert Htls Hwrap).
      * right. exists e. unfold Run. rewrite Hcert, Htls, Hwrap. reflexivity.
    + right. exists e. unfold Run. rewrite Hcert, Htls. reflexivity.
  - right. exists e. unfold Run. rewrite Hcert. reflexivity.
Qed.

(** X2.  Whether [Run] fails, and with which error, depends on the host
    and on the certificate helpers only: the descriptor, the plugin map,
    the handshake config, the caller-supplied environment, the logger and
    the mode have no part in it. *)
Theorem Run_error_independent
    (r r' : PluginRunner)
    (pluginMap pluginMap' : string -> option plugin_Plugin)
    (hs hs' : plugin_HandshakeConfig) (env env' : list string)
    (lg lg' : log_Logger) (isMetadataMode isMetadataMode' : bool) :
  snd (Run r wrapper pluginMap hs env lg isMetadataMode)
  = snd (Run r' wrapper pluginMap' hs' env' lg' isMetadataMode').
Proof.
  destruct (generateCert tt) as [[certBytes key]|e] eqn:Hcert.
  - destruct (createClientTLSConfig certBytes key) as [tls|e] eqn:Htls.
    + destruct (wrapServerConfig wrapper certBytes key) as [tok|e] eqn:Hwrap.
      * rewrite (Run_ok r wrapper pluginMap hs lg env isMetadataMode
                   _ _ _ _ Hcert Htls Hwrap).
        rewrite (Run_ok r' wrapper pluginMap' hs' lg' env' isMetadataMode'
                   _ _ _ _ Hcert Htls Hwrap).
        reflexivity.
      * unfold Run. rewrite Hcert, Htls, Hwrap. reflexivity.
    + unfold Run. rewrite Hcert, Htls. reflexivity.
  - unfold Run. rewrite Hcert. reflexivity.
Qed.

(** X3.  The client logs to the host logger under the name
    [plugin.metadata] in metadata mode and [plugin] otherwise. *)
Theorem Run_logger_name (r : PluginRunner)
    (pluginMap : string -> option plugin_Plugin)
    (hs : plugin_HandshakeConfig) (env : list string) (lg : log_Logger)
    (isMetadataMode : bool) (c : plugin_Client) :
  Run r wrapper pluginMap hs env lg isMetadataMode = (Some c, None) ->
  Logger (config c)
  = ResetNamed {| logger := lg |}
      (if isMetadataMode then "plugin.metadata" else "plugin").
Proof.
  intros HRun.
  destruct (Run_client r pluginMap hs env lg isMetadataMode c None HRun)
    as (certBytes & key & tls & tok & _ & _ & _ & _ & ->).
  reflexivity.
Qed.

(** X4.  The handle carries the caller's handshake config and plugin map
    untouched, and a command line made of the descriptor's command followed
    by its arguments. *)
Theorem Run_passes_through (r : PluginRunner)
    (pluginMap : string -> option plugin_Plugin)
    (hs : plugin_HandshakeConfig) (env : list string) (lg : log_Logger)
    (isMetadataMode : bool) (c : plugin_Client) :
  Run r wrapper pluginMap hs env lg isMetadataMode = (Some c, None) ->
  HandshakeConfig (config c) = hs
  /\ Plugins (config c) = pluginMap
  /\ exec.Args (Cmd (config c)) = Command r :: Args r.
Proof.
  intros HRun.
  destruct (Run_client r pluginMap hs env lg isMetadataMode c None HRun)
    as (certBytes & key & tls & tok & _ & _ & _ & _ & ->).
  repeat split.
Qed.


(** X6.  What is in the assembled environment: the caller's entries, the
    wrapped-token entry, the mlock entry when the policy is on, the metadata
    entry in metadata mode, and nothing else. *)
Theorem Run_env_membership (r : PluginRunner)
    (pluginMap : string -> option plugin_Plugin)
    (hs : plugin_HandshakeConfig) (env : list string) (lg : log_Logger)
    (isMetadataMode : bool) (c : plugin_Client) :
  Run r wrapper pluginMap hs env lg isMetadataMode = (Some c, None) ->
  exists certBytes key wrapToken,
    generateCert tt = Ok (certBytes, key)
    /\ wrapServerConfig wrapper certBytes key = Ok wrapToken
    /\ forall x : string,
         In x (launchEnv c)
         <-> In x env
             \/ x = Sprintf_kv PluginUnwrapTokenEnv wrapToken
             \/ (MlockEnabled wrapper = true
                 /\ x = Sprintf_kv PluginMlockEnabled "true")
             \/ (isMetadataMode = true
                 /\ x = Sprintf_kv PluginMetadaModeEnv "true").
Proof.
  intros HRun.
  destruct (Run_client r pluginMap hs env lg isMetadataMode c None HRun)
    as (certBytes & key & tls & tok & Hcert & _ & Hwrap & _ & ->).
  exists certBytes, key, tok. repeat split; try assumption;
    apply In_orderedLaunchEnv.
Qed.

(** X7.  [Run] sets no variable but its three: for any other name, the
    assembled environment sets it exactly as often as the caller-supplied
    one. *)
Theorem Run_other_variables (r : PluginRunner)
    (pluginMap : string -> option plugin_Plugin)
    (hs : plugin_HandshakeConfig) (env : list string) (lg : log_Logger)
    (isMetadataMode : bool) (c : plugin_Client) (name : string) :
  envNamesDistinct P ->
  name <> PluginUnwrapTokenEnv -> name <> PluginMlockEnabled ->
  name <> PluginMetadaModeEnv ->
  Run r wrapper pluginMap hs env lg isMetadataMode = (Some c, None) ->
  countVar name (launchEnv c) = countVar name env.
Proof.
  intros Hnames HU HM HD HRun.
  destruct (Run_client r pluginMap hs env lg isMetadataMode c None HRun)
    as (certBytes & key & tls & tok & _ & _ & _ & _ & ->).
  simpl. rewrite (countVar_orderedLaunchEnv _ _ _ _ _ Hnames).
  apply not_eq_sym, String.eqb_neq in HU, HM, HD.
  rewrite HU, HM, HD, !andb_false_r. lia.
Qed.

End LaunchMore.

(** ** More on the command-line flags *)

(** X8.  [FlagSet] stores the defaults in the structure it is called on:
    what the structure held before has no bearing on the parse. *)
Theorem FlagSet_resets (f : APIClientMeta) (args : list string) :
  snd (FlagSet f) = zeroAPIClientMeta
  /\ flag.Parse (FlagSet f) args = parseArgs args.
Proof. split; reflexivity. Qed.

Lemma GetTLSConfig_None (f : APIClientMeta) :
  GetTLSConfig f = None ->
  flagCACert f = "" /\ flagCAPath f = "" /\ flagClientCert f = ""
  /\ flagClientKey f = "" /\ flagInsecure f = false.
Proof.
  unfold GetTLSConfig.
  destruct (flagCACert f =? "") eqn:E1, (flagCAPath f =? "") eqn:E2,
    (flagClientCert f =? "") eqn:E3, (flagClientKey f =? "") eqn:E4,
    (flagInsecure f) eqn:E5; simpl; try discriminate.
  intros _. apply String.eqb_eq in E1, E2, E3, E4. auto.
Qed.

Lemma GetTLSConfig_Some (f : APIClientMeta) (t : api_TLSConfig) :
  GetTLSConfig f = Some t ->
  tlsFlagSet f
  /\ t = {| CACert := flagCACert f; CAPath := flagCAPath f;
            ClientCert := flagClientCert f; ClientKey := flagClientKey f;
            TLSServerName := ""; Insecure := flagInsecure f |}.
Proof.
  intros HS. assert (Hset : tlsFlagSet f).
  { apply tlsFlagSet_test. unfold GetTLSConfig in HS.
    destruct (negb (flagCACert f =? "") || _ || _ || _ || _);
      [reflexivity | discriminate]. }
  split; [exact Hset|].
  apply tlsFlagSet_test in Hset. unfold GetTLSConfig in HS.
  rewrite Hset in HS. congruence.
Qed.

(** X9.  [GetTLSConfig] tells two flag structures apart exactly when they
    differ on a TLS-related flag. *)
Theorem GetTLSConfig_eq_iff (f1 f2 : APIClientMeta) :
  GetTLSConfig f1 = GetTLSConfig f2
  <-> flagCACert f1 = flagCACert f2 /\ flagCAPath f1 = flagCAPath f2
      /\ flagClientCert f1 = flagClientCert f2
      /\ flagClientKey f1 = flagClientKey f2
      /\ flagInsecure f1 = flagInsecure f2.
Proof.
  split.
  - intros Heq.
    destruct (GetTLSConfig f1) as [t|] eqn:H1; symmetry in Heq.
    + apply GetTLSConfig_Some in H1 as [_ ->].
      apply GetTLSConfig_Some in Heq as [_ Heq].
      inversion Heq. auto.
    + apply GetTLSConfig_None in H1 as (A1 & A2 & A3 & A4 & A5).
      apply GetTLSConfig_None in Heq as (B1 & B2 & B3 & B4 & B5).
      repeat split; congruence.
  - intros (H1 & H2 & H3 & H4 & H5). unfold GetTLSConfig.
    rewrite H1, H2, H3, H4, H5. reflexivity.
Qed.

(** X10.  A plugin's main serves exactly when the launcher's token variable
    and the CA file variable are both set, and then with a TLS config that
    is not nil and names that CA file, verbatim, as its only TLS material:
    it never serves without a CA. *)
Theorem PluginMain_serves_with_CA (PluginUnwrapTokenEnv PluginCACertPEMEnv : string)
    (Getenv : string -> string) (t : option api_TLSConfig) :
  TestBackend_PluginMain PluginUnwrapTokenEnv PluginCACertPEMEnv Getenv
  = Served t
  <-> Getenv PluginUnwrapTokenEnv <> ""
      /\ Getenv PluginCACertPEMEnv <> ""
      /\ t = Some {| CACert := Getenv PluginCACertPEMEnv; CAPath := "";
                     ClientCert := ""; ClientKey := ""; TLSServerName := "";
                     Insecure := false |}.
Proof.
  unfold TestBackend_PluginMain.
  destruct (Getenv PluginUnwrapTokenEnv =? "") eqn:EU.
  - apply String.eqb_eq in EU. split; [discriminate|].
    intros (HU & _). contradiction.
  - apply String.eqb_neq in EU.
    destruct (Getenv PluginCACertPEMEnv =? "") eqn:EC.
    + apply String.eqb_eq in EC. split; [discriminate|].
      intros (_ & HC & _). contradiction.
    + change (flag.Parse (FlagSet zeroAPIClientMeta)
                ["--ca-cert=" ++ Getenv PluginCACertPEMEnv])
        with (set_flagCACert (Getenv PluginCACertPEMEnv) zeroAPIClientMeta,
              @None flag.Error).
      cbv iota beta. unfold GetTLSConfig, set_flagCACert. simpl.
      rewrite EC. simpl. apply String.eqb_neq in EC.
      split.
      * intros H. inversion H. auto.
      * intros (_ & _ & ->). reflexivity.
Qed.

(** X11.  Each of the four string flags takes its value after [=] or as
    the next argument, with one dash or two, and stores it verbatim,
    whatever characters it is made of; the parse then goes on with the
    remaining arguments.  Met as the last argument without a value, the
    flag is an error and the structure is left as it was. *)
Theorem string_flags_parse (v : string) (rest : list string)
    (f : APIClientMeta) :
  let parse := flag.parse formalFlags in
  (parse (("--ca-cert=" ++ v) :: rest) f = parse rest (set_flagCACert v f)
   /\ parse (("-ca-cert=" ++ v) :: rest) f = parse rest (set_flagCACert v f)
   /\ parse ("--ca-cert" :: v :: rest) f = parse rest (set_flagCACert v f)
   /\ parse ("-ca-cert" :: v :: rest) f = parse rest (set_flagCACert v f)
   /\ parse ["--ca-cert"] f = (f, Some (flag.ErrNeedsArgument "ca-cert")))
  /\ (parse (("--ca-path=" ++ v) :: rest) f = parse rest (set_flagCAPath v f)
      /\ parse (("-ca-path=" ++ v) :: rest) f
         = parse rest (set_flagCAPath v f)
      /\ parse ("--ca-path" :: v :: rest) f = parse rest (set_flagCAPath v f)
      /\ parse ("-ca-path" :: v :: rest) f = parse rest (set_flagCAPath v f)
      /\ parse ["--ca-path"] f = (f, Some (flag.ErrNeedsArgument "ca-path")))
  /\ (parse (("--client-cert=" ++ v) :: rest) f
      = parse rest (set_flagClientCert v f)
      /\ parse (("-client-cert=" ++ v) :: rest) f
         = parse rest (set_flagClientCert v f)
      /\ parse ("--client-cert" :: v :: rest) f
         = parse rest (set_flagClientCert v f)
      /\ parse ("-client-cert" :: v :: rest) f
         = parse rest (set_flagClientCert v f)
      /\ parse ["--client-cert"] f
         = (f, Some (flag.ErrNeedsArgument "client-cert")))
  /\ (parse (("--client-key=" ++ v) :: rest) f
      = parse rest (set_flagClientKey v f)
      /\ parse (("-client-key=" ++ v) :: rest) f
         = parse rest (set_flagClientKey v f)
      /\ parse ("--client-key" :: v :: rest) f
         = parse rest (set_flagClientKey v f)
      /\ parse ("-client-key" :: v :: rest) f
         = parse rest (set_flagClientKey v f)
      /\ parse ["--client-key"] f
         = (f, Some (flag.ErrNeedsArgument "client-key"))).
Proof. cbv zeta. repeat split; reflexivity. Qed.


(** X13.  The parse ends, without error, at the first argument that is not
    a flag: one shorter than two characters, one that does not begin with a
    dash, or the terminator [--].  Nothing after it is looked at, so an
    invocation that begins with such an argument leaves every flag at its
    default and yields no TLS override. *)
Theorem parse_stops_at_positional (s : string) (rest : list string)
    (f : APIClientMeta) :
  String.length s < 2 \/ String.get 0 s <> Some "-"%char \/ s = "--" ->
  flag.parse formalFlags (s :: rest) f = (f, None)
  /\ parseArgs (s :: rest) = (zeroAPIClientMeta, None)
  /\ GetTLSConfig (fst (parseArgs (s :: rest))) = None.
Proof.
  intros Hs.
  assert (Hstep : forall f, flag.parse formalFlags (s :: rest) f = (f, None)).
  { intros f'. destruct s as [|c0 [|c1 s']].
    - reflexivity.
    - reflexivity.
    - destruct Hs as [Hlen|[Hget| ->]].
      + simpl in Hlen. lia.
      + simpl in Hget.
        destruct (Ascii.eqb c0 "-"%char) eqn:E0.
        * apply Ascii.eqb_eq in E0. subst. contradiction Hget; reflexivity.
        * unfold flag.parse, flag.classify. rewrite E0. reflexivity.
      + reflexivity. }
  split; [apply Hstep|].
  unfold parseArgs, flag.Parse.
  change (fst (FlagSet zeroAPIClientMeta)) with formalFlags.
  rewrite Hstep. split; reflexivity.
Qed.

(** ** Sorting strings *)

Lemma ascii_compare_refl (a : ascii) : Ascii.compare a a = Eq.
Proof. unfold Ascii.compare. apply N.compare_refl. Qed.

Lemma ascii_compare_trans (c : comparison) (a1 a2 a3 : ascii) :
  Ascii.compare a1 a2 = c -> Ascii.compare a2 a3 = c ->
  Ascii.compare a1 a3 = c.
Proof.
  unfold Ascii.compare. destruct c; intros H12 H23.
  - apply N.compare_eq_iff in H12, H23. rewrite H12, H23.
    apply N.compare_refl.
  - rewrite N.compare_lt_iff in *. lia.
  - rewrite N.compare_gt_iff in *. lia.
Qed.

Lemma string_leb_trans (s1 s2 s3 : string) :
  String.leb s1 s2 = true -> String.leb s2 s3 = true ->
  String.leb s1 s3 = true.
Proof.
  unfold String.leb. revert s2 s3.
  induction s1 as [|a1 s1 IH]; intros [|a2 s2] [|a3 s3]; simpl;
    try reflexivity; try discriminate.
  destruct (Ascii.compare a1 a2) eqn:E12; try discriminate;
    destruct (Ascii.compare a2 a3) eqn:E23; try discriminate; intros H12 H23.
  - rewrite (ascii_compare_trans Eq a1 a2 a3 E12 E23). apply (IH s2 s3 H12 H23).
  - apply Ascii.compare_eq_iff in E12. subst a2. rewrite E23. reflexivity.
  - apply Ascii.compare_eq_iff in E23. subst a3. rewrite E12. reflexivity.
  - rewrite (ascii_compare_trans Lt a1 a2 a3 E12 E23). reflexivity.
Qed.

Lemma string_leb_false (x y : string) :
  String.leb x y = false -> String.leb y x = true.
Proof.
  intros H. destruct (String.leb_total x y) as [Hxy|Hyx]; congruence.
Qed.

Lemma sort_insert_perm (x : string) (l : list string) :
  Permutation (sort.insert x l) (x :: l).
Proof.
  induction l as [|y l IH]; simpl.
  - apply Permutation_refl.
  - destruct (String.leb x y).
    + apply Permutation_refl.
    + apply perm_trans with (y :: x :: l).
      * apply perm_skip, IH.
      * apply perm_swap.
Qed.

Lemma sort_Strings_perm (l : list string) : Permutation (sort.Strings l) l.
Proof.
  induction l as [|x l IH]; simpl.
  - apply perm_nil.
  - apply perm_trans with (x :: sort.Strings l).
    + apply sort_insert_perm.
    + apply perm_skip, IH.
Qed.

Lemma sort_insert_sorted (x : string) (l : list string) :
  StronglySorted (fun a b => String.leb a b = true) l ->
  StronglySorted (fun a b => String.leb a b = true) (sort.insert x l).
Proof.
  induction 1 as [|y l Hl IH Hy]; simpl.
  - repeat constructor.
  - destruct (String.leb x y) eqn:Exy.
    + constructor; [constructor; assumption|].
      constructor; [exact Exy|].
      apply Forall_forall. intros z Hz.
      apply (string_leb_trans x y z Exy).
      apply (proj1 (Forall_forall _ _) Hy z Hz).
    + constructor; [exact IH|].
      apply Forall_forall. intros z Hz.
      apply (Permutation_in z (sort_insert_perm x l)) in Hz.
      destruct Hz as [<-|Hz].
      * apply string_leb_false, Exy.
      * apply (proj1 (Forall_forall _ _) Hy z Hz).
Qed.

Lemma sort_Strings_sorted (l : list string) :
  StronglySorted (fun a b => String.leb a b = true) (sort.Strings l).
Proof.
  induction l as [|x l IH]; simpl.
  - constructor.
  - apply sort_insert_sorted, IH.
Qed.

Lemma sort_insert_comm (x y : string) (l : list string) :
  sort.insert x (sort.insert y l) = sort.insert y (sort.insert x l).
Proof.
  induction l as [|z l IH]; simpl.
  - destruct (String.leb x y) eqn:Exy, (String.leb y x) eqn:Eyx;
      try reflexivity.
    + rewrite (String.leb_antisym x y Exy Eyx). reflexivity.
    + apply string_leb_false in Exy. congruence.
  - destruct (String.leb y z) eqn:Eyz, (String.leb x z) eqn:Exz; simpl;
      rewrite ?Eyz, ?Exz.
    + destruct (String.leb x y) eqn:Exy, (String.leb y x) eqn:Eyx;
        try reflexivity.
      * rewrite (String.leb_antisym x y Exy Eyx). reflexivity.
      * apply string_leb_false in Exy. congruence.
    + destruct (String.leb x y) eqn:Exy.
      * rewrite (string_leb_trans x y z Exy Eyz) in Exz. discriminate.
      * reflexivity.
    + destruct (String.leb y x) eqn:Eyx.
      * rewrite (string_leb_trans y x z Eyx Exz) in Eyz. discriminate.
      * reflexivity.
    + rewrite IH. reflexivity.
Qed.

Lemma sort_Strings_order_free (l l' : list string) :
  Permutation l l' -> sort.Strings l = sort.Strings l'.
Proof.
  induction 1 as [|x l l' _ IH|x y l|l l' l'' _ IH1 _ IH2]; simpl.
  - reflexivity.
  - rewrite IH. reflexivity.
  - apply sort_insert_comm.
  - congruence.
Qed.

(** ** Trimming white space *)

Section DropRunes.

Variable t1 : ascii -> bool.
Variable t2 : ascii -> ascii -> bool.
Variable t3 : ascii -> ascii -> ascii -> bool.

Local Abbreviation drop := (strings.dropRunes t1 t2 t3).
Local Abbreviation starts := (strings.startsWith t1 t2 t3).

Lemma dropRunes_fix (l : list ascii) : starts l = false -> drop l = l.
Proof.
  destruct l as [|c1 [|c2 [|c3 r3]]]; simpl; try reflexivity.
  - rewrite orb_false_r. intros ->. reflexivity.
  - rewrite orb_false_r. intros H.
    apply orb_false_iff in H as [-> ->]. reflexivity.
  - intros H. apply orb_false_iff in H as [-> H].
    apply orb_false_iff in H as [-> ->]. reflexivity.
Qed.

Lemma dropRunes_starts_bounded (n : nat) :
  forall l : list ascii, length l <= n -> starts (drop l) = false.
Proof.
  induction n as [|n IH]; intros l Hl.
  - destruct l; [reflexivity | simpl in Hl; lia].
  - destruct l as [|c1 r1]; [reflexivity|].
    simpl in Hl. simpl strings.dropRunes.
    destruct (t1 c1) eqn:E1; [apply IH; lia|].
    destruct r1 as [|c2 r2]; [simpl; rewrite E1; reflexivity|].
    simpl in Hl.
    destruct (t2 c1 c2) eqn:E2; [apply IH; lia|].
    destruct r2 as [|c3 r3]; [simpl; rewrite E1, E2; reflexivity|].
    simpl in Hl.
    destruct (t3 c1 c2 c3) eqn:E3; [apply IH; lia|].
    simpl. rewrite E1, E2, E3. reflexivity.
Qed.

Lemma dropRunes_starts (l : list ascii) : starts (drop l) = false.
Proof. apply (dropRunes_starts_bounded (length l)), le_n. Qed.

Lemma dropRunes_suffix_bounded (n : nat) :
  forall l : list ascii, length l <= n -> exists p, l = (p ++ drop l)%list.
Proof.
  induction n as [|n IH]; intros l Hl.
  - destruct l; [exists []; reflexivity | simpl in Hl; lia].
  - destruct l as [|c1 r1]; [exists []; reflexivity|].
    simpl in Hl. simpl strings.dropRunes.
    destruct (t1 c1).
    { destruct (IH r1) as [p Hp]; [lia|].
      exists (c1 :: p). simpl. rewrite <- Hp. reflexivity. }
    destruct r1 as [|c2 r2]; [exists []; reflexivity|].
    simpl in Hl.
    destruct (t2 c1 c2).
    { destruct (IH r2) as [p Hp]; [lia|].
      exists (c1 :: c2 :: p). simpl. rewrite <- Hp. reflexivity. }
    destruct r2 as [|c3 r3]; [exists []; reflexivity|].
    simpl in Hl.
    destruct (t3 c1 c2 c3).
    { destruct (IH r3) as [p Hp]; [lia|].
      exists (c1 :: c2 :: c3 :: p). simpl. rewrite <- Hp. reflexivity. }
    exists []. reflexivity.
Qed.

Lemma dropRunes_suffix (l : list ascii) : exists p, l = (p ++ drop l)%list.
Proof. apply (dropRunes_suffix_bounded (length l)), le_n. Qed.

Lemma startsWith_app (p q : list ascii) :
  starts p = true -> starts (p ++ q)%list = true.
Proof.
  destruct p as [|c1 [|c2 [|c3 r3]]]; simpl; try discriminate.
  - rewrite orb_false_r. intros ->. reflexivity.
  - rewrite orb_false_r. intros H. apply orb_true_iff in H as [->| ->].
    + reflexivity.
    + apply orb_true_r.
  - intros H. exact H.
Qed.

End DropRunes.

Lemma trimLeft_of_prefix (n q : list ascii) :
  strings.trimLeft (n ++ q)%list = (n ++ q)%list -> strings.trimLeft n = n.
Proof.
  intros Hfix. unfold strings.trimLeft in *. apply dropRunes_fix.
  destruct (strings.startsWith strings.asciiSpace strings.space2
              strings.space3 n) eqn:Hn; [|reflexivity].
  apply (startsWith_app _ _ _ n q) in Hn.
  rewrite <- Hfix, dropRunes_starts in Hn. discriminate.
Qed.

Lemma TrimSpace_trimmed (s : string) :
  strings.TrimSpace (strings.TrimSpace s) = strings.TrimSpace s.
Proof.
  unfold strings.TrimSpace. rewrite list_ascii_of_string_of_list_ascii.
  set (m := strings.trimLeft (list_ascii_of_string s)).
  assert (Hm : strings.trimLeft m = m).
  { apply dropRunes_fix, dropRunes_starts. }
  set (n := strings.trimRight m).
  assert (HR : strings.trimRight n = n).
  { unfold n, strings.trimRight. rewrite rev_involutive.
    unfold strings.trimLeftRev.
    rewrite (dropRunes_fix _ _ _ _ (dropRunes_starts _ _ _ _)).
    reflexivity. }
  assert (HL : strings.trimLeft n = n).
  { destruct (dropRunes_suffix strings.asciiSpace
                (fun c2 c1 => strings.space2 c1 c2)
                (fun c3 c2 c1 => strings.space3 c1 c2 c3) (rev m))
      as [p Hp].
    apply (trimLeft_of_prefix n (rev p)).
    assert (Hmn : m = (n ++ rev p)%list).
    { unfold n, strings.trimRight, strings.trimLeftRev.
      rewrite <- rev_app_distr, <- Hp, rev_involutive. reflexivity. }
    rewrite <- Hmn. exact Hm. }
  rewrite HL, HR. reflexivity.
Qed.

(** ** The help of a path *)

Section PathHelpProperties.

Context {C : framework.Collaborators}.

Local Abbreviation keys p := (map fst (framework.Fields p)).

(** The entry the second loop makes of a field. *)
Local Abbreviation entry k schema :=
  {| framework.fdKey := k;
     framework.fdType :=
       framework.FieldType_String (framework.Type_ schema);
     framework.fdDescription :=
       if String.eqb (strings.TrimSpace (framework.Description schema)) ""
       then "<no description>"
       else strings.TrimSpace (framework.Description schema);
     framework.fdURL := false |}.

Lemma lookupField_In (fields : list (string * option framework.FieldSchema))
    (k : string) (schema : framework.FieldSchema) :
  framework.lookupField fields k = Some schema -> In (k, Some schema) fields.
Proof.
  induction fields as [|[k' v] rest IH]; simpl; [discriminate|].
  destruct (String.eqb k' k) eqn:E.
  - apply String.eqb_eq in E. intros ->. left. subst. reflexivity.
  - intros H. right. exact (IH H).
Qed.

Lemma lookupField_absent (fields : list (string * option framework.FieldSchema))
    (k : string) :
  ~ In k (map fst fields) -> framework.lookupField fields k = None.
Proof.
  induction fields as [|[k' v] rest IH]; simpl; [reflexivity|].
  intros Hnot. destruct (String.eqb k' k) eqn:E.
  - apply String.eqb_eq in E. exfalso. apply Hnot. left. exact E.
  - apply IH. intros Hin. apply Hnot. right. exact Hin.
Qed.

Lemma lookupField_NoDup (fields : list (string * option framework.FieldSchema))
    (k : string) (v : option framework.FieldSchema) :
  NoDup (map fst fields) -> In (k, v) fields ->
  framework.lookupField fields k = v.
Proof.
  induction fields as [|[k' v'] rest IH]; simpl; [contradiction|].
  intros Hnd [Heq|Hin].
  - inversion Heq; subst. rewrite String.eqb_refl. reflexivity.
  - inversion Hnd as [|? ? Hnotin Hnd']; subst.
    destruct (String.eqb k' k) eqn:E.
    + apply String.eqb_eq in E. subst k'. exfalso. apply Hnotin.
      apply (in_map fst) in Hin. exact Hin.
    + apply IH; assumption.
Qed.

Lemma lookupField_order_free
    (e e' : list (string * option framework.FieldSchema)) (k : string) :
  NoDup (map fst e) -> Permutation e e' ->
  framework.lookupField e k = framework.lookupField e' k.
Proof.
  intros Hnd Hperm.
  assert (Hnd' : NoDup (map fst e')).
  { apply (Permutation_NoDup (Permutation_map fst Hperm) Hnd). }
  destruct (in_dec string_dec k (map fst e)) as [Hin|Hnot].
  - apply in_map_iff in Hin as ([k0 v] & Hk & Hin). simpl in Hk. subst k0.
    rewrite (lookupField_NoDup e k v Hnd Hin).
    symmetry. apply (lookupField_NoDup e' k v Hnd').
    apply (Permutation_in _ Hperm Hin).
  - rewrite (lookupField_absent e k Hnot).
    symmetry. apply lookupField_absent. intros Hin. apply Hnot.
    apply (Permutation_in _ (Permutation_sym (Permutation_map fst Hperm))).
    exact Hin.
Qed.

Lemma fieldHelp_Return (p : framework.Path) (k : string)
    (fd : framework.pathTemplateFieldData) :
  framework.fieldHelp p k = framework.Return fd
  <-> exists schema,
        framework.lookupField (framework.Fields p) k = Some schema
        /\ fd = entry k schema.
Proof.
  unfold framework.fieldHelp.
  destruct (framework.lookupField (framework.Fields p) k) as [schema|].
  - split.
    + intros H. inversion H. exists schema. split; reflexivity.
    + intros (schema' & Hs & ->). inversion Hs. reflexivity.
  - split; [discriminate|]. intros (schema' & Hs & _). discriminate.
Qed.

Lemma buildFields_Return (p : framework.Path) (ks : list string)
    (fds : list framework.pathTemplateFieldData) :
  framework.buildFields p ks = framework.Return fds ->
  Forall2 (fun k fd => framework.fieldHelp p k = framework.Return fd) ks fds.
Proof.
  revert fds. induction ks as [|k ks IH]; simpl; intros fds H.
  - inversion H. constructor.
  - destruct (framework.fieldHelp p k) as [fd|] eqn:Hk; [|discriminate].
    destruct (framework.buildFields p ks) as [fds'|]; [|discriminate].
    inversion H; subst. constructor; [exact Hk | apply IH; reflexivity].
Qed.

Lemma buildFields_Panic (p : framework.Path) (ks : list string) :
  framework.buildFields p ks = framework.Panic
  <-> exists k, In k ks
                /\ framework.lookupField (framework.Fields p) k = None.
Proof.
  induction ks as [|k ks IH]; simpl.
  - split; [discriminate|]. intros (k & [] & _).
  - unfold framework.fieldHelp at 1.
    destruct (framework.lookupField (framework.Fields p) k) as [schema|]
      eqn:Hk.
    + destruct (framework.buildFields p ks) as [fds|].
      * split; [discriminate|].
        intros (k' & [<-|Hin] & Hnone); [congruence|].
        assert (Hex : exists k0, In k0 ks
                  /\ framework.lookupField (framework.Fields p) k0 = None)
          by (exists k'; split; assumption).
        apply IH in Hex. discriminate.
      * split; [|reflexivity]. intros _.
        destruct (proj1 IH eq_refl) as (k' & Hin & Hnone).
        exists k'. split; [right; exact Hin | exact Hnone].
    + split; [|reflexivity]. intros _. exists k.
      split; [left; reflexivity | exact Hk].
Qed.

Lemma buildFields_keys (p : framework.Path) (ks : list string)
    (fds : list framework.pathTemplateFieldData) :
  framework.buildFields p ks = framework.Return fds ->
  map framework.fdKey fds = ks.
Proof.
  intros H. apply buildFields_Return in H.
  induction H as [|k fd ks fds Hk _ IH]; simpl; [reflexivity|].
  apply fieldHelp_Return in Hk as (schema & _ & ->). simpl.
  rewrite IH. reflexivity.
Qed.

Lemma buildFields_ext (p p' : framework.Path) (ks : list string) :
  (forall k, framework.lookupField (framework.Fields p) k
             = framework.lookupField (framework.Fields p') k) ->
  framework.buildFields p ks = framework.buildFields p' ks.
Proof.
  intros Hlook. induction ks as [|k ks IH]; simpl; [reflexivity|].
  unfold framework.fieldHelp. rewrite (Hlook k), IH. reflexivity.
Qed.

Lemma helpData_Return (p : framework.Path) (req : logical.Request)
    (d : framework.pathTemplateData) :
  framework.helpData p req = framework.Return d ->
  framework.buildFields p (sort.Strings (keys p))
  = framework.Return (framework.tdFields d)
  /\ framework.tdRequest d = logical.Path req
  /\ framework.tdRoutePattern d = framework.Pattern p
  /\ framework.tdSynopsis d = strings.TrimSpace (framework.HelpSynopsis p)
  /\ framework.tdDescription d
     = strings.TrimSpace (framework.HelpDescription p).
Proof.
  unfold framework.helpData.
  destruct (framework.buildFields p (sort.Strings (keys p))) as [fds|];
    [|discriminate].
  intros H. inversion H; subst. simpl. repeat split.
Qed.

Lemma Forall2_In_l (A B : Type) (R : A -> B -> Prop) (l1 : list A)
    (l2 : list B) (a : A) :
  Forall2 R l1 l2 -> In a l1 -> exists b, In b l2 /\ R a b.
Proof.
  induction 1 as [|x y l1 l2 Hxy _ IH]; simpl; [contradiction|].
  intros [<-|Hin].
  - exists y. split; [left; reflexivity | exact Hxy].
  - destruct (IH Hin) as (b & Hb & Hab).
    exists b. split; [right; exact Hb | exact Hab].
Qed.

Lemma Forall2_In_r (A B : Type) (R : A -> B -> Prop) (l1 : list A)
    (l2 : list B) (b : B) :
  Forall2 R l1 l2 -> In b l2 -> exists a, In a l1 /\ R a b.
Proof.
  induction 1 as [|x y l1 l2 Hxy _ IH]; simpl; [contradiction|].
  intros [<-|Hin].
  - exists x. split; [left; reflexivity | exact Hxy].
  - destruct (IH Hin) as (a & Ha & Hab).
    exists a. split; [right; exact Ha | exact Hab].
Qed.

Lemma sorted_strict (l : list string) :
  NoDup l -> StronglySorted (fun a b => String.leb a b = true) l ->
  StronglySorted (fun a b => String.ltb a b = true) l.
Proof.
  induction 2 as [|x l Hl IH Hx]; constructor.
  - apply IH. inversion H; assumption.
  - inversion H as [|? ? Hnotin _]; subst.
    apply Forall_forall. intros y Hy.
    pose proof (proj1 (Forall_forall _ _) Hx y Hy) as Hle.
    unfold String.leb in Hle. unfold String.ltb.
    destruct (String.compare x y) eqn:Ecmp; try reflexivity; try discriminate.
    apply String.compare_eq_iff in Ecmp. subst y. contradiction.
Qed.

(** X14.  The field entries of the help come in strictly increasing order
    of their keys, strings being compared byte by byte, and there is one
    entry for each field of the path, whatever the order in which the
    fields were visited. *)
Theorem helpData_fields_sorted (p : framework.Path) (req : logical.Request)
    (d : framework.pathTemplateData) :
  NoDup (keys p) ->
  framework.helpData p req = framework.Return d ->
  StronglySorted (fun a b => String.ltb a b = true)
    (map framework.fdKey (framework.tdFields d))
  /\ Permutation (map framework.fdKey (framework.tdFields d)) (keys p)
  /\ length (framework.tdFields d) = length (framework.Fields p).
Proof.
  intros Hnd Hd. apply helpData_Return in Hd as (Hb & _).
  apply buildFields_keys in Hb.
  assert (Hperm : Permutation (map framework.fdKey (framework.tdFields d))
                    (keys p)).
  { rewrite Hb. apply sort_Strings_perm. }
  split; [|split].
  - apply sorted_strict.
    + apply (Permutation_NoDup (Permutation_sym Hperm) Hnd).
    + rewrite Hb. apply sort_Strings_sorted.
  - exact Hperm.
  - apply Permutation_length in Hperm. rewrite !length_map in Hperm.
    exact Hperm.
Qed.

(** X15.  The entries are those of the fields: an entry is in the help
    exactly when it is made of a field of the path, with the field's name
    as key, the name of its type, and as description the schema's
    description without surrounding white space, or [<no description>]
    when nothing is left of it. *)
Theorem helpData_field_entries (p : framework.Path) (req : logical.Request)
    (d : framework.pathTemplateData)
    (fd : framework.pathTemplateFieldData) :
  NoDup (keys p) ->
  framework.helpData p req = framework.Return d ->
  In fd (framework.tdFields d)
  <-> exists k schema,
        In (k, Some schema) (framework.Fields p) /\ fd = entry k schema.
Proof.
  intros Hnd Hd. apply helpData_Return in Hd as (Hb & _).
  pose proof (buildFields_keys _ _ _ Hb) as Hkeys.
  apply buildFields_Return in Hb.
  split.
  - intros Hin.
    destruct (Forall2_In_r _ _ _ _ _ fd Hb Hin) as (k & _ & Hk).
    apply fieldHelp_Return in Hk as (schema & Hlook & ->).
    exists k, schema. split; [apply lookupField_In, Hlook | reflexivity].
  - intros (k & schema & Hin & ->).
    assert (Hk : In k (sort.Strings (keys p))).
    { apply (Permutation_in _ (Permutation_sym (sort_Strings_perm _))).
      apply (in_map fst) in Hin. exact Hin. }
    destruct (Forall2_In_l _ _ _ _ _ k Hb Hk) as (fd' & Hin' & Hfd').
    apply fieldHelp_Return in Hfd' as (schema' & Hlook & ->).
    rewrite (lookupField_NoDup _ k (Some schema) Hnd Hin) in Hlook.
    inversion Hlook; subst. exact Hin'.
Qed.

(** X16.  What goes to the template is tidy: the synopsis and the
    description are those of the path with no white space left around
    them; no field description is empty or has white space around it; no
    field is marked as part of the URL; the request path and the route
    pattern are passed on as they are. *)
Theorem helpData_trimmed (p : framework.Path) (req : logical.Request)
    (d : framework.pathTemplateData) :
  framework.helpData p req = framework.Return d ->
  framework.tdRequest d = logical.Path req
  /\ framework.tdRoutePattern d = framework.Pattern p
  /\ framework.tdSynopsis d = strings.TrimSpace (framework.HelpSynopsis p)
  /\ strings.TrimSpace (framework.tdSynopsis d) = framework.tdSynopsis d
  /\ framework.tdDescription d
     = strings.TrimSpace (framework.HelpDescription p)
  /\ strings.TrimSpace (framework.tdDescription d) = framework.tdDescription d
  /\ Forall (fun fd => framework.fdDescription fd <> ""
                       /\ strings.TrimSpace (framework.fdDescription fd)
                          = framework.fdDescription fd
                       /\ framework.fdURL fd = false)
       (framework.tdFields d).
Proof.
  intros Hd. apply helpData_Return in Hd as (Hb & HR & HP & HS & HD).
  rewrite HS, HD, !TrimSpace_trimmed.
  repeat split; try assumption.
  apply buildFields_Return in Hb. apply Forall_forall. intros fd Hin.
  destruct (Forall2_In_r _ _ _ _ _ fd Hb Hin) as (k & _ & Hk).
  apply fieldHelp_Return in Hk as (schema & _ & ->). simpl.
  destruct (String.eqb (strings.TrimSpace (framework.Description schema)) "")
    eqn:E.
  - split; [discriminate|]. split; reflexivity.
  - apply String.eqb_neq in E. split; [exact E|].
    split; [apply TrimSpace_trimmed | reflexivity].
Qed.

(** X17.  The help does not depend on the order in which the fields of
    the path are visited, nor on the callbacks of the path. *)
Theorem helpCallback_order_free (p p' : framework.Path)
    (req : logical.Request) (data : framework.FieldData) :
  NoDup (keys p) ->
  Permutation (framework.Fields p) (framework.Fields p') ->
  framework.Pattern p = framework.Pattern p' ->
  framework.HelpSynopsis p = framework.HelpSynopsis p' ->
  framework.HelpDescription p = framework.HelpDescription p' ->
  framework.helpCallback p req data = framework.helpCallback p' req data.
Proof.
  intros Hnd Hperm HP HS HD.
  unfold framework.helpCallback, framework.helpData.
  rewrite <- (sort_Strings_order_free _ _ (Permutation_map fst Hperm)).
  rewrite (buildFields_ext p p' _
             (fun k => lookupField_order_free _ _ k Hnd Hperm)).
  rewrite HP, HS, HD. reflexivity.
Qed.

(** X18.  The help panics exactly when a field of the path has a nil
    schema; the template engine is not consulted then. *)
Theorem helpCallback_panics (p : framework.Path) (req : logical.Request)
    (data : framework.FieldData) :
  NoDup (keys p) ->
  framework.helpCallback p req data = framework.Panic
  <-> exists k, In (k, None) (framework.Fields p).
Proof.
  intros Hnd.
  assert (Hdata : framework.helpData p req = framework.Panic
                  <-> exists k, In (k, None) (framework.Fields p)).
  { unfold framework.helpData.
    destruct (framework.buildFields p (sort.Strings (keys p))) as [fds|]
      eqn:Hb.
    - split; [discriminate|]. intros (k & Hin). exfalso.
      assert (Hex : exists k0, In k0 (sort.Strings (keys p))
                /\ framework.lookupField (framework.Fields p) k0 = None).
      { exists k. split.
        - apply (Permutation_in _ (Permutation_sym (sort_Strings_perm _))).
          apply (in_map fst) in Hin. exact Hin.
        - apply (lookupField_NoDup _ k None Hnd Hin). }
      apply buildFields_Panic in Hex. congruence.
    - split; [|reflexivity]. intros _.
      apply buildFields_Panic in Hb as (k & Hk & Hnone).
      exists k.
      apply (Permutation_in _ (sort_Strings_perm _)) in Hk.
      apply in_map_iff in Hk as ([k0 v] & Hk0 & Hin). simpl in Hk0. subst k0.
      rewrite (lookupField_NoDup _ k v Hnd Hin) in Hnone. subst v.
      exact Hin. }
  unfold framework.helpCallback.
  destruct (framework.helpData p req) as [d|].
  - split.
    + destruct (framework.template_Parse "root" framework.pathHelpTemplate)
        as [tpl|err]; [|discriminate].
      destruct (framework.template_Execute tpl d); discriminate.
    + intros Hex. apply Hdata in Hex. discriminate.
  - split; [|reflexivity]. intros _. apply Hdata. reflexivity.
Qed.

(** X19.  When the help returns, it returns a response or an error, never
    both and never neither.  The response is the help response for the
    rendered text without surrounding white space, with nothing to see
    also; the error is the template engine's, told apart by its prefix:
    parsing or executing. *)
Theorem helpCallback_returns (p : framework.Path) (req : logical.Request)
    (data : framework.FieldData) (resp : option framework.Response)
    (err : option string) :
  framework.helpCallback p req data = framework.Return (resp, err) ->
  (exists tpl d buf,
     framework.template_Parse "root" framework.pathHelpTemplate = inl tpl
     /\ framework.helpData p req = framework.Return d
     /\ framework.template_Execute tpl d = inl buf
     /\ resp = Some (framework.HelpResponse (strings.TrimSpace buf) [])
     /\ strings.TrimSpace (strings.TrimSpace buf) = strings.TrimSpace buf
     /\ err = None)
  \/ (exists msg,
        framework.template_Parse "root" framework.pathHelpTemplate = inr msg
        /\ resp = None
        /\ err = Some ("error parsing template: " ++ msg))
  \/ (exists tpl d msg,
        framework.template_Parse "root" framework.pathHelpTemplate = inl tpl
        /\ framework.helpData p req = framework.Return d
        /\ framework.template_Execute tpl d = inr msg
        /\ resp = None
        /\ err = Some ("error executing template: " ++ msg)).
Proof.
  unfold framework.helpCallback.
  destruct (framework.helpData p req) as [d|]; [|discriminate].
  destruct (framework.template_Parse "root" framework.pathHelpTemplate)
    as [tpl|msg] eqn:Hparse.
  - destruct (framework.template_Execute tpl d) as [buf|msg] eqn:Hexec;
      intros H; inversion H; subst.
    + left. exists tpl, d, buf. repeat split; try assumption.
      apply TrimSpace_trimmed.
    + right; right. exists tpl, d, msg. repeat split; assumption.
  - intros H; inversion H; subst. right; left. exists msg. repeat split.
Qed.

End PathHelpProperties.

(** * The statements on the sample host *)

#[local] Existing Instance sampleTypes.
#[local] Existing Instance samplePackage.

Lemma sample_names_distinct : envNamesDistinct samplePackage.
Proof. repeat split; try reflexivity; discriminate. Qed.

Local Abbreviation sampleRun := (Run (P := samplePackage)).

(** A metadata-mode launch with the mlock policy on and one caller-supplied
    entry. *)
Lemma Run_env_order_witness :
  sampleRun echo (sampleWrapper true) samplePlugins 1 ["HOME=/root"] tt true
  = (Some (sampleClient "echo" ["hello"]
             ["HOME=/root"; "VAULT_UNWRAP_TOKEN=s.4f2a";
              "VAULT_PLUGIN_MLOCK_ENABLED=true";
              "VAULT_PLUGIN_METADATA_MODE=true"]
             None "plugin.metadata"), None)
  /\ exists certBytes key wrapToken,
       generateCert (Package := samplePackage) tt = Ok (certBytes, key)
       /\ wrapServerConfig (sampleWrapper true) certBytes key = Ok wrapToken
       /\ ["HOME=/root"; "VAULT_UNWRAP_TOKEN=s.4f2a";
           "VAULT_PLUGIN_MLOCK_ENABLED=true";
           "VAULT_PLUGIN_METADATA_MODE=true"]
          = (["HOME=/root"] ++ [Sprintf_kv "VAULT_UNWRAP_TOKEN" wrapToken]
             ++ [Sprintf_kv "VAULT_PLUGIN_MLOCK_ENABLED" "true"]
             ++ [Sprintf_kv "VAULT_PLUGIN_METADATA_MODE" "true"])%list.
Proof.
  match goal with |- ?A /\ _ => assert (HRun : A) by reflexivity end.
  split; [exact HRun|].
  exact (Run_env_order echo (sampleWrapper true) samplePlugins 1 tt
           ["HOME=/root"] true _ HRun).
Defined.

Lemma Run_secure_config_witness :
  sampleRun echo (sampleWrapper false) samplePlugins 1 [] tt true
  = (Some (sampleClient "echo" ["hello"]
             ["VAULT_UNWRAP_TOKEN=s.4f2a"; "VAULT_PLUGIN_METADATA_MODE=true"]
             None "plugin.metadata"), None)
  /\ Some {| Checksum := [x01; x02];
             Hash := sha256_New (Package := samplePackage) |}
     = Some {| Checksum := Sha256 echo;
               Hash := sha256_New (Package := samplePackage) |}
  /\ @None string = None.
Proof.
  match goal with |- ?A /\ _ => assert (HRun : A) by reflexivity end.
  split; [exact HRun|].
  destruct (Run_secure_config echo (sampleWrapper false) samplePlugins 1 tt
              [] true _ HRun) as (HS & HT & _).
  split; [exact HS | exact (HT eq_refl)].
Defined.

(** A binary whose digest is not the registered one: the start is refused
    and the world is untouched. *)
Lemma Run_checksum_gate_witness :
  sampleRun echo (sampleWrapper false) samplePlugins 1 [] tt false
  = (Some (sampleClient "echo" ["hello"] ["VAULT_UNWRAP_TOKEN=s.4f2a"]
             (Some "client-tls") "plugin"), None)
  /\ sha256_New (Package := samplePackage) [x09] <> Sha256 echo
  /\ Client_Start (T := sampleTypes) "checksums did not match" [x09] None
       (sampleClient "echo" ["hello"] ["VAULT_UNWRAP_TOKEN=s.4f2a"]
          (Some "client-tls") "plugin")
       (mkWorld [] [])
     = (Some "checksums did not match", mkWorld [] []).
Proof.
  match goal with |- ?A /\ _ => assert (HRun : A) by reflexivity end.
  split; [exact HRun|]. split; [discriminate|].
  apply (proj2 (Run_checksum_gate echo (sampleWrapper false) samplePlugins 1
                  tt [] false _ HRun)).
  discriminate.
Defined.

(** The wrapping service is down. *)
Lemma Run_wrap_failure_witness :
  generateCert (Package := samplePackage) tt = Ok ([x30; x82], 7)
  /\ createClientTLSConfig (Package := samplePackage) [x30; x82] 7
     = Ok (Some "client-tls")
  /\ wrapServerConfig (Package := samplePackage) brokenWrapper [x30; x82] 7
     = Err "wrapping unavailable"
  /\ sampleRun echo brokenWrapper samplePlugins 1 [] tt false
     = (None, Some "wrapping unavailable").
Proof.
  split; [reflexivity|]. split; [reflexivity|]. split; [reflexivity|].
  exact (Run_wrap_failure echo brokenWrapper samplePlugins 1 tt [] false
           [x30; x82] 7 (Some "client-tls") "wrapping unavailable"
           eq_refl eq_refl eq_refl).
Defined.

Lemma Run_error_paths_witness :
  (sampleRun (sampleRunner "" []) brokenWrapper samplePlugins 1 [] tt false
   = (None, Some "wrapping unavailable"))
  /\ exists c,
       sampleRun (sampleRunner "" []) (sampleWrapper false) samplePlugins 1
         [] tt false = (Some c, None)
       /\ exec.Args (Cmd (config c)) = [""].
Proof.
  split.
  - apply (proj1 (Run_error_paths (sampleRunner "" []) brokenWrapper
                    samplePlugins 1 tt [] false)).
    right; right. exists [x30; x82], 7, (Some "client-tls").
    repeat split.
  - exact (proj2 (Run_error_paths (sampleRunner "" []) (sampleWrapper false)
                    samplePlugins 1 tt [] false)
             [x30; x82] 7 (Some "client-tls") "s.4f2a"
             eq_refl eq_refl eq_refl).
Defined.

Lemma Run_metadata_mode_witness :
  envNamesDistinct samplePackage
  /\ sampleRun echo (sampleWrapper false) samplePlugins 1 [] tt true
     = (Some (sampleClient "echo" ["hello"]
                ["VAULT_UNWRAP_TOKEN=s.4f2a";
                 "VAULT_PLUGIN_METADATA_MODE=true"]
                None "plugin.metadata"), None)
  /\ In "VAULT_PLUGIN_METADATA_MODE=true"
       ["VAULT_UNWRAP_TOKEN=s.4f2a"; "VAULT_PLUGIN_METADATA_MODE=true"]
  /\ countVar "VAULT_UNWRAP_TOKEN"
       ["VAULT_UNWRAP_TOKEN=s.4f2a"; "VAULT_PLUGIN_METADATA_MODE=true"] = 1
  /\ @None string = None.
Proof.
  split; [exact sample_names_distinct|].
  match goal with |- ?A /\ _ => assert (HRun : A) by reflexivity end.
  split; [exact HRun|].
  destruct (Run_metadata_mode echo (sampleWrapper false) samplePlugins 1 tt
              [] _ sample_names_distinct HRun)
    as (_ & Hmeta & Hcount & _ & Htls).
  split; [exact Hmeta|]. split; [exact Hcount | exact Htls].
Defined.

Lemma Run_echo_hello_witness :
  envNamesDistinct samplePackage
  /\ Command echo = "echo" /\ Args echo = ["hello"]
  /\ (exists c,
        sampleRun echo (sampleWrapper true) samplePlugins 1 [] tt false
        = (Some c, None)
        /\ exec.Env (Cmd (config c))
           = ["VAULT_UNWRAP_TOKEN=s.4f2a"; "VAULT_PLUGIN_MLOCK_ENABLED=true"])
  /\ (exists c,
        sampleRun echo (sampleWrapper false) samplePlugins 1 [] tt false
        = (Some c, None)
        /\ exec.Env (Cmd (config c)) = ["VAULT_UNWRAP_TOKEN=s.4f2a"]).
Proof.
  split; [exact sample_names_distinct|]. split; [reflexivity|].
  split; [reflexivity|]. split.
  - destruct (Run_echo_hello echo (sampleWrapper true) samplePlugins 1 tt
                [x30; x82] 7 (Some "client-tls") "s.4f2a"
                sample_names_distinct eq_refl eq_refl eq_refl eq_refl eq_refl)
      as (c & HRun & _ & HEnv & _).
    exists c. split; [exact HRun | exact HEnv].
  - destruct (Run_echo_hello echo (sampleWrapper false) samplePlugins 1 tt
                [x30; x82] 7 (Some "client-tls") "s.4f2a"
                sample_names_distinct eq_refl eq_refl eq_refl eq_refl eq_refl)
      as (c & HRun & _ & HEnv & _).
    exists c. split; [exact HRun | exact HEnv].
Defined.

Lemma Run_mlock_env_witness :
  envNamesDistinct samplePackage
  /\ sampleRun echo (sampleWrapper true) samplePlugins 1 ["HOME=/root"] tt
       false
     = (Some (sampleClient "echo" ["hello"]
                ["HOME=/root"; "VAULT_UNWRAP_TOKEN=s.4f2a";
                 "VAULT_PLUGIN_MLOCK_ENABLED=true"]
                (Some "client-tls") "plugin"), None)
  /\ countVar "VAULT_PLUGIN_MLOCK_ENABLED"
       ["HOME=/root"; "VAULT_UNWRAP_TOKEN=s.4f2a";
        "VAULT_PLUGIN_MLOCK_ENABLED=true"]
     = countVar "VAULT_PLUGIN_MLOCK_ENABLED" ["HOME=/root"] + 1.
Proof.
  split; [exact sample_names_distinct|].
  match goal with |- ?A /\ _ => assert (HRun : A) by reflexivity end.
  split; [exact HRun|].
  exact (proj2 (Run_mlock_env echo (sampleWrapper true) samplePlugins 1 tt
                  ["HOME=/root"] false _ sample_names_distinct HRun)).
Defined.

Lemma GetTLSConfig_override_witness :
  tlsFlagSet (mkAPIClientMeta "" "/etc/ssl" "" "" true false)
  /\ GetTLSConfig (mkAPIClientMeta "" "/etc/ssl" "" "" true false)
     = Some (mkTLSConfig "" "/etc/ssl" "" "" "" true)
  /\ ~ tlsFlagSet (mkAPIClientMeta "" "" "" "" false true)
  /\ GetTLSConfig (mkAPIClientMeta "" "" "" "" false true) = None.
Proof.
  assert (Hset : tlsFlagSet (mkAPIClientMeta "" "/etc/ssl" "" "" true false)).
  { right; left; discriminate. }
  assert (Hunset : ~ tlsFlagSet (mkAPIClientMeta "" "" "" "" false true)).
  { intros [H|[H|[H|[H|H]]]]; try (apply H; reflexivity); discriminate. }
  split; [exact Hset|].
  split; [exact (proj1 GetTLSConfig_override _ Hset)|].
  split; [exact Hunset|].
  exact (proj1 (proj2 GetTLSConfig_override) _ Hunset).
Defined.

Lemma GetTLSConfig_metadata_only_witness :
  parseArgs ["--metadata"] = (mkAPIClientMeta "" "" "" "" false true, None)
  /\ GetTLSConfig (mkAPIClientMeta "" "" "" "" false true) = None
  /\ FetchMetadata (mkAPIClientMeta "" "" "" "" false true) = true.
Proof.
  split; [reflexivity|].
  exact (GetTLSConfig_metadata_only (mkAPIClientMeta "" "" "" "" false true)
           eq_refl eq_refl eq_refl eq_refl eq_refl).
Defined.

(** ** Where the code departs from the specification *)

(** C1 as stated fails: a metadata-mode launch still carries the
    wrapped-token variable. *)
Lemma metadata_launch_keeps_wrapped_token :
  exists c,
    sampleRun echo (sampleWrapper false) samplePlugins 1 [] tt true
    = (Some c, None)
    /\ exec.Env (Cmd (config c))
       = ["VAULT_UNWRAP_TOKEN=s.4f2a"; "VAULT_PLUGIN_METADATA_MODE=true"]
    /\ countVar (PluginUnwrapTokenEnv (Package := samplePackage))
         (exec.Env (Cmd (config c))) = 1.
Proof. eexists. repeat split. Qed.

(** C4 as stated fails: a descriptor that is not built-in and has no command
    is launched all the same. *)
Lemma Run_accepts_missing_command :
  Command (sampleRunner "" []) = ""
  /\ Builtin (sampleRunner "" []) = false
  /\ exists c,
       sampleRun (sampleRunner "" []) (sampleWrapper false) samplePlugins 1
         [] tt false = (Some c, None)
       /\ exec.Args (Cmd (config c)) = [""].
Proof. split; [|split]; try reflexivity. eexists. split; reflexivity. Qed.

(** C7 as stated fails: with the mlock policy off, the variable is in the
    assembled environment when the caller supplied it. *)
Lemma caller_env_mlock_entry :
  MlockEnabled (sampleWrapper false) = false
  /\ exists c,
       sampleRun echo (sampleWrapper false) samplePlugins 1
         ["VAULT_PLUGIN_MLOCK_ENABLED=true"] tt false = (Some c, None)
       /\ In (Sprintf_kv (PluginMlockEnabled (Package := samplePackage)) "true")
            (exec.Env (Cmd (config c))).
Proof.
  split; [reflexivity|]. eexists. split; [reflexivity|]. left; reflexivity.
Qed.

(** ** The further statements on the sample host *)

Lemma Run_logger_name_witness :
  sampleRun echo (sampleWrapper false) samplePlugins 1 [] tt true
  = (Some (sampleClient "echo" ["hello"]
             ["VAULT_UNWRAP_TOKEN=s.4f2a"; "VAULT_PLUGIN_METADATA_MODE=true"]
             None "plugin.metadata"), None)
  /\ "plugin.metadata" = ResetNamed (mkHclogFaker tt) "plugin.metadata".
Proof.
  match goal with |- ?A /\ _ => assert (HRun : A) by reflexivity end.
  split; [exact HRun|].
  exact (Run_logger_name (sampleWrapper false) echo samplePlugins 1 [] tt
           true _ HRun).
Defined.

Lemma Run_passes_through_witness :
  sampleRun echo (sampleWrapper false) samplePlugins 1 [] tt false
  = (Some (sampleClient "echo" ["hello"] ["VAULT_UNWRAP_TOKEN=s.4f2a"]
             (Some "client-tls") "plugin"), None)
  /\ 1 = 1 /\ samplePlugins = samplePlugins
  /\ ["echo"; "hello"] = Command echo :: Args echo.
Proof.
  match goal with |- ?A /\ _ => assert (HRun : A) by reflexivity end.
  split; [exact HRun|].
  exact (Run_passes_through (sampleWrapper false) echo samplePlugins 1 [] tt
           false _ HRun).
Defined.


Lemma Run_env_membership_witness :
  sampleRun echo (sampleWrapper false) samplePlugins 1 ["HOME=/root"] tt false
  = (Some (sampleClient "echo" ["hello"]
             ["HOME=/root"; "VAULT_UNWRAP_TOKEN=s.4f2a"]
             (Some "client-tls") "plugin"), None)
  /\ exists wrapToken,
       forall x : string,
         In x ["HOME=/root"; "VAULT_UNWRAP_TOKEN=s.4f2a"]
         <-> In x ["HOME=/root"]
             \/ x = Sprintf_kv "VAULT_UNWRAP_TOKEN" wrapToken
             \/ (false = true /\ x = "VAULT_PLUGIN_MLOCK_ENABLED=true")
             \/ (false = true /\ x = "VAULT_PLUGIN_METADATA_MODE=true").
Proof.
  match goal with |- ?A /\ _ => assert (HRun : A) by reflexivity end.
  split; [exact HRun|].
  destruct (Run_env_membership (sampleWrapper false) echo samplePlugins 1
              ["HOME=/root"] tt false _ HRun)
    as (certBytes & key & tok & _ & _ & Hmem).
  exists tok. exact Hmem.
Defined.

Lemma Run_other_variables_witness :
  envNamesDistinct samplePackage
  /\ sampleRun echo (sampleWrapper true) samplePlugins 1
       ["HOME=/root"; "HOME=/tmp"] tt true
     = (Some (sampleClient "echo" ["hello"]
                ["HOME=/root"; "HOME=/tmp"; "VAULT_UNWRAP_TOKEN=s.4f2a";
                 "VAULT_PLUGIN_MLOCK_ENABLED=true";
                 "VAULT_PLUGIN_METADATA_MODE=true"]
                None "plugin.metadata"), None)
  /\ countVar "HOME"
       ["HOME=/root"; "HOME=/tmp"; "VAULT_UNWRAP_TOKEN=s.4f2a";
        "VAULT_PLUGIN_MLOCK_ENABLED=true"; "VAULT_PLUGIN_METADATA_MODE=true"]
     = countVar "HOME" ["HOME=/root"; "HOME=/tmp"].
Proof.
  split; [exact sample_names_distinct|].
  match goal with |- ?A /\ _ => assert (HRun : A) by reflexivity end.
  split; [exact HRun|].
  assert (HU : "HOME" <> "VAULT_UNWRAP_TOKEN") by discriminate.
  assert (HM : "HOME" <> "VAULT_PLUGIN_MLOCK_ENABLED") by discriminate.
  assert (HD : "HOME" <> "VAULT_PLUGIN_METADATA_MODE") by discriminate.
  exact (Run_other_variables (sampleWrapper true) echo samplePlugins 1
           ["HOME=/root"; "HOME=/tmp"] tt true _ "HOME"
           sample_names_distinct HU HM HD HRun).
Defined.

Lemma parse_stops_at_positional_witness :
  (String.length "serve" < 2 \/ String.get 0 "serve" <> Some "-"%char
   \/ "serve" = "--")
  /\ parseArgs ["serve"; "--tls-skip-verify"] = (zeroAPIClientMeta, None)
  /\ GetTLSConfig (fst (parseArgs ["serve"; "--tls-skip-verify"])) = None.
Proof.
  assert (Hs : String.length "serve" < 2
               \/ String.get 0 "serve" <> Some "-"%char \/ "serve" = "--").
  { right; left. discriminate. }
  split; [exact Hs|].
  exact (proj2 (parse_stops_at_positional "serve" ["--tls-skip-verify"]
                  zeroAPIClientMeta Hs)).
Defined.

#[local] Existing Instance sampleCollaborators.

Lemma samplePath_keys_NoDup : NoDup (map fst (framework.Fields samplePath)).
Proof.
  repeat constructor; simpl; intuition discriminate.
Qed.

Lemma helpData_fields_sorted_witness :
  NoDup (map fst (framework.Fields samplePath))
  /\ framework.helpData samplePath sampleRequest
     = framework.Return sampleHelpData
  /\ StronglySorted (fun a b => String.ltb a b = true) ["name"; "ttl"]
  /\ Permutation ["name"; "ttl"] ["ttl"; "name"]
  /\ 2 = 2.
Proof.
  assert (Hd : framework.helpData samplePath sampleRequest
               = framework.Return sampleHelpData) by reflexivity.
  split; [exact samplePath_keys_NoDup|]. split; [exact Hd|].
  exact (helpData_fields_sorted samplePath sampleRequest sampleHelpData
           samplePath_keys_NoDup Hd).
Defined.

Lemma helpData_field_entries_witness :
  NoDup (map fst (framework.Fields samplePath))
  /\ framework.helpData samplePath sampleRequest
     = framework.Return sampleHelpData
  /\ In (framework.mkFieldData "name" "string" "<no description>" false)
       (framework.tdFields sampleHelpData).
Proof.
  assert (Hd : framework.helpData samplePath sampleRequest
               = framework.Return sampleHelpData) by reflexivity.
  split; [exact samplePath_keys_NoDup|]. split; [exact Hd|].
  apply (proj2 (helpData_field_entries samplePath sampleRequest
                  sampleHelpData _ samplePath_keys_NoDup Hd)).
  exists "name", (@framework.mkFieldSchema sampleCollaborators "string" " ").
  split; [right; left; reflexivity | reflexivity].
Defined.

Lemma helpData_trimmed_witness :
  framework.helpData samplePath sampleRequest
  = framework.Return sampleHelpData
  /\ framework.tdSynopsis sampleHelpData = "Issue credentials"
  /\ Forall (fun fd => framework.fdDescription fd <> ""
                       /\ strings.TrimSpace (framework.fdDescription fd)
                          = framework.fdDescription fd
                       /\ framework.fdURL fd = false)
       (framework.tdFields sampleHelpData).
Proof.
  assert (Hd : framework.helpData samplePath sampleRequest
               = framework.Return sampleHelpData) by reflexivity.
  split; [exact Hd|].
  destruct (helpData_trimmed samplePath sampleRequest sampleHelpData Hd)
    as (_ & _ & HS & _ & _ & _ & HF).
  split; [exact HS | exact HF].
Defined.

Lemma helpCallback_order_free_witness :
  NoDup (map fst (framework.Fields samplePath))
  /\ Permutation (framework.Fields samplePath)
       (framework.Fields samplePathReordered)
  /\ framework.helpCallback samplePath sampleRequest tt
     = framework.helpCallback samplePathReordered sampleRequest tt.
Proof.
  assert (Hperm : Permutation (framework.Fields samplePath)
                    (framework.Fields samplePathReordered)).
  { apply Permutation_rev. }
  split; [exact samplePath_keys_NoDup|]. split; [exact Hperm|].
  exact (helpCallback_order_free samplePath samplePathReordered sampleRequest
           tt samplePath_keys_NoDup Hperm eq_refl eq_refl eq_refl).
Defined.

Lemma helpCallback_panics_witness :
  NoDup (map fst (framework.Fields samplePathNilSchema))
  /\ (exists k, In (k, None) (framework.Fields samplePathNilSchema))
  /\ framework.helpCallback samplePathNilSchema sampleRequest tt
     = framework.Panic.
Proof.
  assert (Hnd : NoDup (map fst (framework.Fields samplePathNilSchema))).
  { repeat constructor; simpl; intuition discriminate. }
  assert (Hnil : exists k, In (k, None) (framework.Fields samplePathNilSchema)).
  { exists "lease". left. reflexivity. }
  split; [exact Hnd|]. split; [exact Hnil|].
  exact (proj2 (helpCallback_panics samplePathNilSchema sampleRequest tt Hnd)
           Hnil).
Defined.

Lemma helpCallback_returns_witness :
  framework.helpCallback samplePath sampleRequest tt
  = framework.Return (Some "creds/bob:name,ttl", None)
  /\ exists buf : string,
       Some "creds/bob:name,ttl" = Some (strings.TrimSpace buf).
Proof.
  assert (Hc : framework.helpCallback samplePath sampleRequest tt
               = framework.Return (Some "creds/bob:name,ttl", None))
    by reflexivity.
  split; [exact Hc|].
  destruct (helpCallback_returns samplePath sampleRequest tt _ _ Hc)
    as [(tpl & d & buf & _ & _ & _ & Hresp & _)
       |[(msg & _ & Hresp & _)|(tpl & d & msg & _ & _ & _ & Hresp & _)]].
  - exists buf. exact Hresp.
  - discriminate Hresp.
  - discriminate Hresp.
Defined.
